(** * smartfood: the two prediction services, embedded and verified

    The repository ships two inference scripts, [cnn_predict.py] (image
    classification over the 101 Food-101 classes) and [lstm_predict.py]
    (calorie and eating-category prediction over a 14 x 9 sequence).  Both
    delegate inference to a Keras model and keep for themselves the input
    decoding, the ranking or denormalisation of the raw outputs and the
    request handling.  This file embeds those parts and proves what the
    specification says about them.

    Layout: the Python and NumPy primitives the scripts call, then the two
    scripts, then the example environments, then the theorems. *)

From Stdlib Require Import String Ascii ZArith Lia Bool PeanoNat.
From Stdlib Require Import List Permutation Sorted.
From Stdlib Require Import Floats.SpecFloat.
Import ListNotations.

(* ================================================================= *)
(** ** Python: exceptions, subscripting, loops, strings *)

Module Py.

(** The exception classes the two scripts raise or let through.
    [Exception] stands for any other subclass of Python's [Exception]
    that a library call raises (binascii.Error, PIL's
    UnidentifiedImageError, Keras shape errors, ...). *)
Inductive exn : Type :=
| FileNotFoundError (msg : string)
| ValueError (msg : string)
| IndexError (msg : string)
| TypeError (msg : string)
| Exception (msg : string).

(** [str(e)] *)
Definition str (e : exn) : string :=
  match e with
  | FileNotFoundError msg | ValueError msg | IndexError msg
  | TypeError msg | Exception msg => msg
  end.

Inductive result (A : Type) : Type :=
| Ok (a : A)
| Raise (e : exn).
Arguments Ok {A} a.
Arguments Raise {A} e.

Definition bind {A B} (c : result A) (k : A -> result B) : result B :=
  match c with
  | Ok a => k a
  | Raise e => Raise e
  end.

(** A Python float is an IEEE 754 value; [float(x)] of a NumPy float32
    scalar widens it without changing its value, so it is kept as it is. *)
Definition float : Type := spec_float.

(** [l[i]] for a non-negative [i]. *)
Definition getitem {A} (l : list A) (i : nat) : result A :=
  match nth_error l i with
  | Some a => Ok a
  | None => Raise (IndexError "list index out of range")
  end.

(** [x[...]] where [x] may be [None]. *)
Definition subscriptable {A} (x : option A) : result A :=
  match x with
  | Some a => Ok a
  | None => Raise (TypeError "'NoneType' object is not subscriptable")
  end.

(** [for x in l: out.append(f(x))], stopping at the first exception. *)
Fixpoint for_each {A B} (f : A -> result B) (l : list A) : result (list B) :=
  match l with
  | [] => Ok []
  | x :: l' =>
      bind (f x) (fun y => bind (for_each f l') (fun ys => Ok (y :: ys)))
  end.

(** [l[-n:]] *)
Definition lastn {A} (n : nat) (l : list A) : list A :=
  skipn (length l - n) l.

(** [s.replace(old, new)] for one-character [old] and [new]. *)
Fixpoint replace (old new : ascii) (s : string) : string :=
  match s with
  | EmptyString => EmptyString
  | String c s' =>
      String (if Ascii.eqb c old then new else c) (replace old new s')
  end.

(** [d.get(key)] on a JSON object held as its list of members. *)
Fixpoint get {V} (d : list (string * V)) (key : string) : option V :=
  match d with
  | [] => None
  | (k, v) :: d' => if String.eqb k key then Some v else get d' key
  end.

End Py.

Import Py.

Declare Scope py_scope.
Delimit Scope py_scope with py.
Notation "x <- c ;; k" := (Py.bind c (fun x => k))
  (at level 61, c at next level, right associativity) : py_scope.

(* ================================================================= *)
(** ** NumPy: float order, argsort, argmax, array conversion *)

Module Np.

Definition isnan (x : float) : bool :=
  match x with
  | S754_nan => true
  | _ => false
  end.

Definition isfinite (x : float) : bool :=
  match x with
  | S754_zero _ | S754_finite _ _ _ => true
  | _ => false
  end.

(** The order NumPy sorts floating-point keys by: IEEE [<], with NaN
    after every number ([a < b || (b != b && a == a)]). *)
Definition less (a b : float) : bool :=
  SFltb a b || (negb (SFeqb b b) && SFeqb a a).

(** That order is the lexicographic order of a key: the class
    (negative numbers, zeros, positive numbers, infinities at both ends,
    NaN last), then the exponent, then the mantissa. *)
Definition key (x : float) : Z * Z * Z :=
  match x with
  | S754_nan => (3, 0, 0)
  | S754_infinity false => (2, 0, 0)
  | S754_infinity true => (-2, 0, 0)
  | S754_zero _ => (0, 0, 0)
  | S754_finite false m e => (1, e, Zpos m)
  | S754_finite true m e => (-1, - e, Zneg m)
  end%Z.

Definition klt (a b : Z * Z * Z) : Prop :=
  let '(a1, a2, a3) := a in
  let '(b1, b2, b3) := b in
  (a1 < b1 \/ (a1 = b1 /\ (a2 < b2 \/ (a2 = b2 /\ a3 < b3))))%Z.

(** [v[i]] for an index known to be in range (NaN otherwise; the
    scripts subscript through [Py.getitem]). *)
Definition at_ (v : list float) (i : nat) : float := nth i v S754_nan.

(** What [np.argsort(v)] promises whatever the sorting kind: the
    indices [0 .. len(v)-1], arranged so that the keys ascend.  The
    default kind is not stable, so the order among equal keys is left
    open. *)
Definition ascending (v : list float) (idx : list nat) : Prop :=
  StronglySorted (fun a b => less (at_ v b) (at_ v a) = false) idx.

Record argsort_spec (argsort : list float -> list nat) : Prop := {
  argsort_perm : forall v, Permutation (argsort v) (seq 0 (length v));
  argsort_ascending : forall v, ascending v (argsort v)
}.
Arguments argsort_perm {argsort} _ v.
Arguments argsort_ascending {argsort} _ v.

(** Index [i] holds a maximum of [v]: every score is [<=] the one at
    [i] (so no score is NaN). *)
Definition is_maximum (v : list float) (i : nat) : Prop :=
  i < length v /\ forall k, k < length v -> SFleb (at_ v k) (at_ v i) = true.

(** Index [k] is the first maximum of [v] in NumPy's order: no score
    is greater, and every earlier score is smaller. *)
Definition first_maximum (v : list float) (k : nat) : Prop :=
  k < length v /\
  (forall i, i < length v -> less (at_ v k) (at_ v i) = false) /\
  (forall i, i < k -> less (at_ v i) (at_ v k) = true).

Definition is_maximumb (v : list float) (i : nat) : bool :=
  (i <? length v) && forallb (fun x => SFleb x (at_ v i)) v.

(** Index [m] holds the unique maximum of [v]: every other score is
    [<] the one at [m]. *)
Definition is_unique_maximum (v : list float) (m : nat) : Prop :=
  m < length v /\
  forall k, k < length v -> k <> m -> SFltb (at_ v k) (at_ v m) = true.

Definition is_unique_maximumb (v : list float) (m : nat) : bool :=
  (m <? length v) &&
  forallb (fun k => (k =? m) || SFltb (at_ v k) (at_ v m)) (seq 0 (length v)).

(** A stable argsort ([kind='stable']) keeps equal keys in index order:
    its output ascends in (key, index). *)
Definition key_index_le (v : list float) (a b : nat) : Prop :=
  less (at_ v a) (at_ v b) = true \/
  (less (at_ v b) (at_ v a) = false /\ a <= b).

Definition stable_spec (argsort : list float -> list nat) : Prop :=
  forall v, StronglySorted (key_index_le v) (argsort v).

(** A stable argsort to run: insertion of the indices [0 .. n-1], from
    the last one down, each before the first index already placed whose
    key is not smaller. *)
Fixpoint insert_index (v : list float) (i : nat) (sorted : list nat) : list nat :=
  match sorted with
  | [] => [i]
  | j :: rest =>
      if less (at_ v j) (at_ v i) then j :: insert_index v i rest
      else i :: sorted
  end.

Definition argsort_stable (v : list float) : list nat :=
  fold_right (insert_index v) [] (seq 0 (length v)).

(** [np.argmax] over a one-dimensional float array: the first maximum,
    a NaN counting as maximal (the scan stops at the first NaN). *)
Fixpoint argmax_scan (mp : float) (max_ind i : nat) (ip : list float) : nat :=
  match ip with
  | [] => max_ind
  | x :: ip' =>
      if negb (SFleb x mp)
      then if isnan x then i else argmax_scan x i (S i) ip'
      else argmax_scan mp max_ind (S i) ip'
  end.

Definition argmax (a : list float) : result nat :=
  match a with
  | [] => Raise (ValueError "attempt to get argmax of an empty sequence")
  | x :: ip => if isnan x then Ok 0 else Ok (argmax_scan x 0 1 ip)
  end.

(** A JSON scalar met inside a sequence: a number (null and the
    booleans convert to NaN, 0.0 and 1.0 and count as numbers), or a
    string that [float()] does not parse. *)
Inductive entry : Type :=
| Number (x : float)
| Text (s : string).

(** Conversion of a Python float to the format of the NumPy scalar it
    meets in an arithmetic expression. *)
Definition astype (prec emax : Z) (x : float) : float :=
  match x with
  | S754_finite s m e => binary_round prec emax s m e
  | _ => x
  end.

(** Rounding to float32 (binary32: 24-bit mantissa, infinities at
    exponent 128). *)
Definition float32 (x : float) : float := astype 24 128 x.

Definition rectangular {A} (rows : list (list A)) : bool :=
  match rows with
  | [] => true
  | r :: rows' => forallb (fun r' => length r' =? length r) rows'
  end.

Definition to_float32 (x : entry) : result float :=
  match x with
  | Number x => Ok (float32 x)
  | Text s => Raise (ValueError ("could not convert string to float: '" ++ s ++ "'")%string)
  end.

(** [np.array(batch, dtype=np.float32)] for a list of lists of lists:
    a ragged nesting or an entry that is not a number raises
    ValueError; no particular shape is asked for. *)
Definition array (batch : list (list (list entry))) : result (list (list (list float))) :=
  if rectangular batch && rectangular (concat batch)
  then for_each (for_each (for_each to_float32)) batch
  else Raise (ValueError "setting an array element with a sequence. The requested array has an inhomogeneous shape").

(** [a.shape] of a rectangular three-level array. *)
Definition shape (a : list (list (list float))) : nat * nat * nat :=
  (length a, length (hd [] a), length (hd [] (hd [] a))).

End Np.

Local Open Scope py_scope.

(* ================================================================= *)
(** ** cnn_predict.py *)

Module CnnPredict.

(** Food-101 class names (same order as training). *)
Definition FOOD_CLASSES : list string := [
  "apple_pie"; "baby_back_ribs"; "baklava"; "beef_carpaccio"; "beef_tartare";
  "beet_salad"; "beignets"; "bibimbap"; "bread_pudding"; "breakfast_burrito";
  "bruschetta"; "caesar_salad"; "cannoli"; "caprese_salad"; "carrot_cake";
  "ceviche"; "cheesecake"; "cheese_plate"; "chicken_curry"; "chicken_quesadilla";
  "chicken_wings"; "chocolate_cake"; "chocolate_mousse"; "churros"; "clam_chowder";
  "club_sandwich"; "crab_cakes"; "creme_brulee"; "croque_madame"; "cup_cakes";
  "deviled_eggs"; "donuts"; "dumplings"; "edamame"; "eggs_benedict";
  "escargots"; "falafel"; "filet_mignon"; "fish_and_chips"; "foie_gras";
  "french_fries"; "french_onion_soup"; "french_toast"; "fried_calamari"; "fried_rice";
  "frozen_yogurt"; "garlic_bread"; "gnocchi"; "greek_salad"; "grilled_cheese_sandwich";
  "grilled_salmon"; "guacamole"; "gyoza"; "hamburger"; "hot_and_sour_soup";
  "hot_dog"; "huevos_rancheros"; "hummus"; "ice_cream"; "lasagna";
  "lobster_bisque"; "lobster_roll_sandwich"; "macaroni_and_cheese"; "macarons"; "miso_soup";
  "mussels"; "nachos"; "omelette"; "onion_rings"; "oysters";
  "pad_thai"; "paella"; "pancakes"; "panna_cotta"; "peking_duck";
  "pho"; "pizza"; "pork_chop"; "poutine"; "prime_rib";
  "pulled_pork_sandwich"; "ramen"; "ravioli"; "red_velvet_cake"; "risotto";
  "samosa"; "sashimi"; "scallops"; "seaweed_salad"; "shrimp_and_grits";
  "spaghetti_bolognese"; "spaghetti_carbonara"; "spring_rolls"; "steak"; "strawberry_shortcake";
  "sushi"; "tacos"; "takoyaki"; "tiramisu"; "tuna_tartare";
  "waffles"
]%string.

Definition IMAGE_SIZE : nat := 224.
Definition NUM_CLASSES : nat := 101.

(** One entry of [top_5] and the dict [predict] returns. *)
Record Ranked : Type := { label : string; score : float }.

Record Prediction : Type := {
  class : string;
  display : string;          (* key 'label' of the returned dict *)
  confidence : float;
  top_5 : list Ranked
}.

(** What the script takes from its libraries and from the disk.  A
    loaded Keras model is its [predict]: from the image array to the
    batch of score vectors, or an exception. *)
Record Env : Type := {
  Bytes : Type;
  Image : Type;
  Array : Type;
  MODEL_PATH : option string;             (* None: neither candidate existed at import *)
  exists_ : string -> bool;               (* Path.exists *)
  load_keras : string -> result (Array -> result (list (list float)));
  b64decode : string -> result Bytes;
  Image_open : Bytes -> result Image;
  mode_RGB : Image -> bool;               (* image.mode == 'RGB' *)
  convert_RGB : Image -> result Image;
  resize : Image -> nat * nat -> result Image;
  scaled_array : Image -> result Array;   (* np.expand_dims(np.array(image) / 255.0, axis=0) *)
  argsort : list float -> list nat        (* np.argsort *)
}.

Definition Model (E : Env) : Type := Array E -> result (list (list float)).

Section Service.
Variable E : Env.

(** [str(MODEL_PATH)] inside an f-string *)
Definition path_str (p : option string) : string :=
  match p with
  | Some s => s
  | None => "None"
  end.

(** [load_model], over the module global [_model]. *)
Definition load_model (_model : option (Model E))
  : option (Model E) * result (Model E) :=
  match _model with
  | Some m => (_model, Ok m)
  | None =>
      match MODEL_PATH E with
      | Some p =>
          if exists_ E p then
            match load_keras E p with
            | Ok m => (Some m, Ok m)
            | Raise e => (None, Raise e)
            end
          else (None, Raise (FileNotFoundError
                  ("CNN model not found. Expected at: " ++ path_str (MODEL_PATH E))%string))
      | None => (None, Raise (FileNotFoundError
                  ("CNN model not found. Expected at: " ++ path_str (MODEL_PATH E))%string))
      end
  end.

(** The body of the [try] in [preprocess_image]. *)
Definition preprocess_steps (image_base64 : string) : result (Array E) :=
  image_data <- b64decode E image_base64 ;;
  image <- Image_open E image_data ;;
  image <- (if mode_RGB E image then Ok image else convert_RGB E image) ;;
  image <- resize E image (IMAGE_SIZE, IMAGE_SIZE) ;;
  scaled_array E image.

Definition preprocess_image (image_base64 : string) : result (Array E) :=
  match preprocess_steps image_base64 with
  | Ok img_array => Ok img_array
  | Raise e => Raise (ValueError ("Failed to preprocess image: " ++ str e)%string)
  end.

(** Lines 128-149 of [predict]: from [predictions] to the result.
    Every subscript is written with [getitem]; where the source
    subscripts a NumPy array, an index out of range raises IndexError
    there as well, in NumPy's wording of the message. *)
Definition rank (predictions : list (list float)) : result Prediction :=
  p0 <- getitem predictions 0 ;;
  let top_5_indices := rev (lastn 5 (argsort E p0)) in
  top_index <- getitem top_5_indices 0 ;;
  top_class <- getitem FOOD_CLASSES top_index ;;
  top_confidence <- getitem p0 top_index ;;
  top_5 <- for_each (fun idx =>
             l <- getitem FOOD_CLASSES idx ;;
             s <- getitem p0 idx ;;
             Ok {| label := l; score := s |}) top_5_indices ;;
  Ok {| class := top_class;
        display := replace "_" " " top_class;
        confidence := top_confidence;
        top_5 := top_5 |}.

Definition predict (_model : option (Model E)) (image_base64 : string)
  : option (Model E) * result Prediction :=
  let (_model, loaded) := load_model _model in
  (_model,
   model <- loaded ;;
   img_array <- preprocess_image image_base64 ;;
   predictions <- model img_array ;;
   rank predictions).

(** [np.argsort(v)[::-1]]: the indices by descending score, of which
    [top_5_indices] is the first five; and the entry built for an index
    that is in range. *)
Definition descending (v : list float) : list nat := rev (argsort E v).

Definition ranked (v : list float) (idx : nat) : Ranked :=
  {| label := nth idx FOOD_CLASSES EmptyString; score := Np.at_ v idx |}.

(** What [model.predict] returns for a request (lines 120-126 of
    [predict]): the input of the ranking. *)
Definition model_output (_model : option (Model E)) (image_base64 : string)
  : result (list (list float)) :=
  model <- snd (load_model _model) ;;
  img_array <- preprocess_image image_base64 ;;
  model img_array.

(** A Flask response: the JSON body and the HTTP status. *)
Inductive body : Type :=
| JsonError (error : string)
| JsonResult (r : Prediction).

(** [predict_endpoint]; [request_json] is what [request.json]
    evaluates to ([None] for a JSON null). *)
Definition predict_endpoint (_model : option (Model E))
    (request_json : result (option (list (string * string))))
  : option (Model E) * (body * nat) :=
  match request_json with
  | Raise e => (_model, (JsonError (str e), 500))
  | Ok None | Ok (Some []) => (_model, (JsonError "No JSON data provided", 400))
  | Ok (Some data) =>
      match get data "image" with
      | None | Some EmptyString => (_model, (JsonError "Missing image", 400))
      | Some image_base64 =>
          match predict _model image_base64 with
          | (_model, Ok result) => (_model, (JsonResult result, 200))
          | (_model, Raise e) => (_model, (JsonError (str e), 500))
          end
      end
  end.

(** The choice of [MODEL_PATH] when the module is imported: the first
    of the two candidates that exists, [None] when neither does. *)
Definition MODEL_DIR (script_dir : string) : string :=
  (script_dir ++ "/data/models/cnn")%string.

Definition MODEL_DIR_ALT (script_dir : string) : string :=
  (script_dir ++ "/notebooks/data/models/cnn")%string.

Definition select_model_path (exists_at_import : string -> bool)
    (script_dir : string) : option string :=
  if exists_at_import (MODEL_DIR script_dir ++ "/food_classifier_best.keras")%string
  then Some (MODEL_DIR script_dir ++ "/food_classifier_best.keras")%string
  else if exists_at_import (MODEL_DIR_ALT script_dir ++ "/food_classifier_best.keras")%string
  then Some (MODEL_DIR_ALT script_dir ++ "/food_classifier_best.keras")%string
  else None.

(** [health]: the body of [GET /health]. *)
Record Health : Type := {
  status : string;
  model_loaded : bool;
  model_available : bool
}.

Definition health (_model : option (Model E)) : Health :=
  {| status := "ok";
     model_loaded := match _model with Some _ => true | None => false end;
     model_available := match MODEL_PATH E with
                        | Some p => exists_ E p
                        | None => false
                        end |}.

(** What a run of the script leaves: the lines printed to the two
    streams (a line is a text or a [json.dumps]) and the exit status,
    or a server that has started with the given cache. *)
Inductive printed : Type :=
| Line (s : string)
| Dumps (b : body).

Inductive started : Type :=
| Exit (stdout stderr : list printed) (code : nat)
| Serving (_model : option (Model E)) (stdout : list printed).

(** [main], from a fresh process ([_model] is [None]); [argv] is
    [sys.argv], [flask_installed] tells whether the two Flask imports
    succeed, [script_dir] is the directory of the script. *)
Definition main (flask_installed : bool) (script_dir : string)
    (argv : list string) : started :=
  match argv with
  | [] | [_] =>
      Exit [Line "Usage: python cnn_predict.py <image_base64>";
            Line "   or: python cnn_predict.py --server"] [] 1
  | _ :: arg :: _ =>
      if String.eqb arg "--server" then
        if flask_installed then
          let (_model, loaded) := load_model None in
          Serving _model
            (match loaded with
             | Ok _ =>
                 [Line "CNN model loaded successfully";
                  Line ("Model path: " ++ path_str (MODEL_PATH E))%string]
             | Raise e =>
                 [Line ("Warning: Could not load CNN model: " ++ str e)%string;
                  Line ("Looking for model at: " ++ MODEL_DIR script_dir ++ " or "
                        ++ MODEL_DIR_ALT script_dir)%string]
             end
             ++ [Line "Starting CNN prediction server on http://localhost:5001";
                 Line "Endpoints:";
                 Line "  POST /predict - Make prediction";
                 Line "  GET /health - Check server status"])
        else
          Exit [] [Line "Flask not installed. Install with: pip install flask flask-cors"] 1
      else
        match predict None arg with
        | (_, Ok result) => Exit [Dumps (JsonResult result)] [] 0
        | (_, Raise e) => Exit [] [Dumps (JsonError (str e))] 1
        end
  end.

End Service.

End CnnPredict.


(* ================================================================= *)
(** ** lstm_predict.py *)

Module LstmPredict.

(** scaler_params.json: keys 'min' and 'max'. *)
Record ScalerParams : Type := {
  scaler_min : list float;
  scaler_max : list float
}.

(** model_config.json *)
Record ModelConfig : Type := { food_categories : list string }.

(** The batch handed to the model, and a loaded Keras model as its
    [predict]: from the batch to the list of output arrays. *)
Definition Tensor : Type := list (list (list float)).
Definition Model : Type := Tensor -> result (list (list (list float))).

(** The dict [predict] returns. *)
Record Prediction : Type := {
  calories : float;
  category : nat;
  categoryConfidence : float
}.

(** The three artifacts under MODEL_DIR: [None] for a file that is not
    there, otherwise what its loader returns.  A file that is there is
    taken to load; [LstmLoader] further down lets its loader raise. *)
Record Files : Type := {
  model_file : option Model;
  scaler_file : option ScalerParams;
  config_file : option ModelConfig
}.

(** The module globals. *)
Record Globals : Type := {
  _model : option Model;
  _scaler_params : option ScalerParams;
  _model_config : option ModelConfig
}.

Definition unloaded : Globals :=
  {| _model := None; _scaler_params := None; _model_config := None |}.

(** The process: its globals, and the batches the model has been run
    on, oldest first. *)
Record World : Type := {
  globals : Globals;
  invoked : list Tensor
}.

Definition fresh : World := {| globals := unloaded; invoked := [] |}.

(** Statements: they read and write the world and return or raise. *)
Definition M (A : Type) : Type := World -> World * result A.

Definition ret {A} (a : A) : M A := fun w => (w, Ok a).
Definition raise {A} (e : exn) : M A := fun w => (w, Raise e).
Definition lift {A} (r : result A) : M A := fun w => (w, r).

Definition seq_ {A B} (c : M A) (k : A -> M B) : M B :=
  fun w =>
    match c w with
    | (w', Ok a) => k a w'
    | (w', Raise e) => (w', Raise e)
    end.

Definition read_globals : M Globals := fun w => (w, Ok (globals w)).

Definition write_globals (g : Globals) : M unit :=
  fun w => ({| globals := g; invoked := invoked w |}, Ok tt).

(** [model.predict(batch, verbose=0)] *)
Definition run (model : Model) (batch : Tensor) : M (list (list (list float))) :=
  fun w => ({| globals := globals w; invoked := invoked w ++ [batch] |}, model batch).

Declare Scope stmt_scope.
Delimit Scope stmt_scope with stmt.
Notation "x <- c ;; k" := (seq_ c (fun x => k))
  (at level 61, c at next level, right associativity) : stmt_scope.
Notation "c ;; k" := (seq_ c (fun _ => k))
  (at level 61, right associativity) : stmt_scope.

Section Service.

(** Where the script found its project root, and what is on the disk. *)
Variable PROJECT_ROOT : string.
Variable files : Files.

(** The format NumPy evaluates [float32 scalar * Python float] in:
    binary64 (53, 1024) under the value-based promotion of NumPy 1.x,
    binary32 (24, 128) under NumPy 2. *)
Variables prec emax : Z.

Definition MODEL_DIR : string := (PROJECT_ROOT ++ "/data/models/lstm")%string.
Definition MODEL_PATH : string := (MODEL_DIR ++ "/eating_pattern_model.h5")%string.
Definition SCALER_PATH : string := (MODEL_DIR ++ "/scaler_params.json")%string.
Definition CONFIG_PATH : string := (MODEL_DIR ++ "/model_config.json")%string.

(** [with open(path, 'r') as f: json.load(f)] *)
Definition open_json {A} (path : string) (file : option A) : M A :=
  match file with
  | Some a => ret a
  | None => raise (FileNotFoundError
              ("[Errno 2] No such file or directory: '" ++ path ++ "'")%string)
  end.

Definition load_model : M (Model * option ScalerParams * option ModelConfig) :=
  (g <- read_globals ;;
   match _model g with
   | Some m => ret (m, _scaler_params g, _model_config g)
   | None =>
       match model_file files with
       | None => raise (FileNotFoundError ("Model not found: " ++ MODEL_PATH)%string)
       | Some m =>
           write_globals {| _model := Some m;
                            _scaler_params := _scaler_params g;
                            _model_config := _model_config g |} ;;
           sp <- open_json SCALER_PATH (scaler_file files) ;;
           write_globals {| _model := Some m;
                            _scaler_params := Some sp;
                            _model_config := _model_config g |} ;;
           mc <- open_json CONFIG_PATH (config_file files) ;;
           write_globals {| _model := Some m;
                            _scaler_params := Some sp;
                            _model_config := Some mc |} ;;
           ret (m, Some sp, Some mc)
       end
   end)%stmt.

(** [calories_pred * (cal_max - cal_min) + cal_min]: the difference is
    taken between Python floats, the product and the sum in the format
    of the NumPy scalar. *)
Definition denormalize (calories_pred cal_min cal_max : float) : float :=
  SFadd prec emax
    (SFmul prec emax calories_pred
       (Np.astype prec emax (SFsub 53 1024 cal_max cal_min)))
    (Np.astype prec emax cal_min).

Definition predict (sequence : list (list Np.entry)) : M Prediction :=
  (loaded <- load_model ;;
   let '(model, scaler_params, model_config) := loaded in
   sequence_array <- lift (Np.array [sequence]) ;;
   predictions <- run model sequence_array ;;
   calories_pred <- lift (p0 <- getitem predictions 0 ;;
                          p00 <- getitem p0 0 ;;
                          getitem p00 0)%py ;;
   category_pred <- lift (p1 <- getitem predictions 1 ;; getitem p1 0)%py ;;
   cal_min <- lift (sp <- subscriptable scaler_params ;;
                    getitem (scaler_min sp) 0)%py ;;
   cal_max <- lift (sp <- subscriptable scaler_params ;;
                    getitem (scaler_max sp) 0)%py ;;
   let predicted_calories := denormalize calories_pred cal_min cal_max in
   category_index <- lift (Np.argmax category_pred) ;;
   predicted_category <- lift (mc <- subscriptable model_config ;;
                               getitem (food_categories mc) category_index)%py ;;
   category_confidence <- lift (getitem category_pred category_index) ;;
   ret {| calories := predicted_calories;
          category := category_index;
          categoryConfidence := category_confidence |})%stmt.

(** The two halves of [predict]: lines 98-108, up to the two raw
    outputs, and lines 110-124, from them to the result. *)
Definition model_output (sequence : list (list Np.entry))
  : M (float * list float * option ScalerParams * option ModelConfig) :=
  (loaded <- load_model ;;
   let '(model, scaler_params, model_config) := loaded in
   sequence_array <- lift (Np.array [sequence]) ;;
   predictions <- run model sequence_array ;;
   calories_pred <- lift (p0 <- getitem predictions 0 ;;
                          p00 <- getitem p0 0 ;;
                          getitem p00 0)%py ;;
   category_pred <- lift (p1 <- getitem predictions 1 ;; getitem p1 0)%py ;;
   ret (calories_pred, category_pred, scaler_params, model_config))%stmt.

Definition normalise (calories_pred : float) (category_pred : list float)
    (scaler_params : option ScalerParams) (model_config : option ModelConfig)
  : result Prediction :=
  cal_min <- (sp <- subscriptable scaler_params ;; getitem (scaler_min sp) 0) ;;
  cal_max <- (sp <- subscriptable scaler_params ;; getitem (scaler_max sp) 0) ;;
  let predicted_calories := denormalize calories_pred cal_min cal_max in
  category_index <- Np.argmax category_pred ;;
  predicted_category <- (mc <- subscriptable model_config ;;
                         getitem (food_categories mc) category_index) ;;
  category_confidence <- getitem category_pred category_index ;;
  Ok {| calories := predicted_calories;
        category := category_index;
        categoryConfidence := category_confidence |}.

(** A Flask response: the JSON body and the HTTP status. *)
Inductive body : Type :=
| JsonError (error : string)
| JsonResult (r : Prediction).

(** [predict_endpoint]; [request_json] is what [request.json]
    evaluates to ([None] for a JSON null). *)
Definition predict_endpoint
    (request_json : result (option (list (string * list (list Np.entry)))))
  : World -> World * (body * nat) :=
  fun w =>
    match request_json with
    | Raise e => (w, (JsonError (str e), 500))
    | Ok None | Ok (Some []) => (w, (JsonError "No JSON data provided", 400))
    | Ok (Some data) =>
        match get data "sequence" with
        | None | Some [] => (w, (JsonError "Missing sequence", 400))
        | Some sequence =>
            match predict sequence w with
            | (w', Ok result) => (w', (JsonResult result, 200))
            | (w', Raise e) => (w', (JsonError (str e), 500))
            end
        end
    end.

(** [health]: the body of [GET /health]; [MODEL_PATH] is always set
    here, so [model_available] is the existence of the model file. *)
Record Health : Type := {
  status : string;
  model_loaded : bool;
  model_available : bool
}.

Definition health (w : World) : Health :=
  {| status := "ok";
     model_loaded := match _model (globals w) with Some _ => true | None => false end;
     model_available := match model_file files with Some _ => true | None => false end |}.

(** What a run of the script leaves, as for the image script. *)
Inductive printed : Type :=
| Line (s : string)
| Dumps (b : body).

Inductive started : Type :=
| Exit (stdout stderr : list printed) (code : nat)
| Serving (w : World) (stdout : list printed).

Definition exists_str (b : bool) : string := if b then "True" else "False".

(** [main], from a fresh process; [json_loads] is [json.loads] on the
    argument (taken on the sequences it can return). *)
Definition main (flask_installed : bool)
    (json_loads : string -> result (list (list Np.entry)))
    (argv : list string) : started :=
  match argv with
  | [] | [_] =>
      Exit [Line "Usage: python lstm_predict.py <sequence_json>";
            Line "   or: python lstm_predict.py --server"] [] 1
  | _ :: arg :: _ =>
      if String.eqb arg "--server" then
        if flask_installed then
          let available := match model_file files with Some _ => true | None => false end in
          let (w, loaded) := load_model fresh in
          Serving w
            ([Line ("[INFO] Looking for model at: " ++ MODEL_PATH)%string;
              Line ("[INFO] Model exists: " ++ exists_str available)%string]
             ++ match loaded with
                | Ok _ => [Line "[OK] Model loaded successfully"]
                | Raise e =>
                    [Line ("[WARNING] Could not load model: " ++ str e)%string;
                     Line ("[INFO] Model path: " ++ MODEL_PATH)%string;
                     Line ("[INFO] Model exists: " ++ exists_str available)%string]
                end
             ++ [Line "Starting LSTM prediction server on http://localhost:5000";
                 Line "Endpoints:";
                 Line "  POST /predict - Make prediction";
                 Line "  GET /health - Check server status"])
        else
          Exit [] [Line "Flask not installed. Install with: pip install flask flask-cors"] 1
      else
        match json_loads arg with
        | Raise e => Exit [] [Dumps (JsonError (str e))] 1
        | Ok sequence =>
            match predict sequence fresh with
            | (_, Ok result) => Exit [Dumps (JsonResult result)] [] 0
            | (_, Raise e) => Exit [] [Dumps (JsonError (str e))] 1
            end
        end
  end.

End Service.

(** [find_project_root].  A path is the list of its components below
    the filesystem root, which is [[]] and its own parent. *)
Definition Path : Type := list string.

Definition parent (p : Path) : Path := removelast p.

Definition has_marker (exists_ : Path -> bool) (current : Path) : bool :=
  exists_ (current ++ ["src"%string]) || exists_ (current ++ ["package.json"%string]).

(** The [for _ in range(levels)] loop from [current]: the directory it
    returns, or [None] when it breaks at the root or runs out. *)
Fixpoint search_up (exists_ : Path -> bool) (levels : nat) (current : Path)
  : option Path :=
  match levels with
  | 0 => None
  | S levels' =>
      if has_marker exists_ current then Some current
      else if list_eq_dec string_dec (parent current) current then None
      else search_up exists_ levels' (parent current)
  end.

Definition find_project_root (exists_ : Path -> bool) (script_dir : Path) : Path :=
  if has_marker exists_ script_dir then script_dir
  else match search_up exists_ 5 script_dir with
       | Some current => current
       | None => script_dir
       end.

(** The directory [k] levels above [p]. *)
Definition ancestor (k : nat) (p : Path) : Path := Nat.iter k parent p.

End LstmPredict.


(* ================================================================= *)
(** ** lstm_predict.py: [load_model] when a file fails to load *)

(** [LstmPredict.load_model] reads a disk on which every file that is
    there loads.  [load_model] below is the same function of lines
    65-86 over a disk where a file that is there may also fail to load:
    tf.keras.models.load_model, open and json.load then raise, and
    [load_model] lets the exception through. *)
Module LstmLoader.

Import LstmPredict.

(** The three artifacts under MODEL_DIR: [None] for a file that is not
    there, otherwise what reading it gives, the loaded value or the
    exception raised. *)
Record Disk : Type := {
  model_h5 : option (result Model);
  scaler_params_json : option (result ScalerParams);
  model_config_json : option (result ModelConfig)
}.

(** The disk of [LstmPredict.Files]: what is there loads. *)
Definition loadable (files : Files) : Disk :=
  {| model_h5 := option_map Ok (model_file files);
     scaler_params_json := option_map Ok (scaler_file files);
     model_config_json := option_map Ok (config_file files) |}.

Section Service.

Variable PROJECT_ROOT : string.
Variable disk : Disk.

(** [with open(path, 'r') as f: json.load(f)] *)
Definition open_json {A} (path : string) (file : option (result A)) : M A :=
  match file with
  | Some loaded => lift loaded
  | None => raise (FileNotFoundError
              ("[Errno 2] No such file or directory: '" ++ path ++ "'")%string)
  end.

Definition load_model : M (Model * option ScalerParams * option ModelConfig) :=
  (g <- read_globals ;;
   match _model g with
   | Some m => ret (m, _scaler_params g, _model_config g)
   | None =>
       match model_h5 disk with
       | None => raise (FileNotFoundError
                   ("Model not found: " ++ MODEL_PATH PROJECT_ROOT)%string)
       | Some loaded =>
           m <- lift loaded ;;
           write_globals {| _model := Some m;
                            _scaler_params := _scaler_params g;
                            _model_config := _model_config g |} ;;
           sp <- open_json (SCALER_PATH PROJECT_ROOT) (scaler_params_json disk) ;;
           write_globals {| _model := Some m;
                            _scaler_params := Some sp;
                            _model_config := _model_config g |} ;;
           mc <- open_json (CONFIG_PATH PROJECT_ROOT) (model_config_json disk) ;;
           write_globals {| _model := Some m;
                            _scaler_params := Some sp;
                            _model_config := Some mc |} ;;
           ret (m, Some sp, Some mc)
       end
   end)%stmt.

End Service.

End LstmLoader.


(* ================================================================= *)
(** ** Example environments *)

Module Examples.

(** float32 literals: [f32 m e] is m * 2^e. *)
Definition f32 (m e : Z) : float := binary_normalize 24 128 m e false.

(** f64 literals for the JSON numbers. *)
Definition f64 (m e : Z) : float := binary_normalize 53 1024 m e false.

(** All 101 scores equal (1/128). *)
Definition uniform : list float := repeat (f32 1 (-7)) 101.

(** The score 3/4 at indices 3 and 7, 1/1024 elsewhere. *)
Definition twin : list float :=
  map (fun i => if (i =? 3) || (i =? 7) then f32 3 (-2) else f32 1 (-10))
      (seq 0 101).

(** One score of 3/4 at index [k], 1/1024 elsewhere. *)
Definition peaked (k : nat) : list float :=
  map (fun i => if i =? k then f32 3 (-2) else f32 1 (-10)) (seq 0 101).

(** An image service whose model answers every image with the scores
    [v], whose base64 decoder rejects "a" (incorrect padding) and whose
    image reader rejects the bytes "GIF?"; argsort is the stable one. *)
Definition cnn_env (v : list float) : CnnPredict.Env :=
  {| CnnPredict.Bytes := string;
     CnnPredict.Image := string;
     CnnPredict.Array := string;
     CnnPredict.MODEL_PATH := Some "data/models/cnn/food_classifier_best.keras"%string;
     CnnPredict.exists_ := fun _ => true;
     CnnPredict.load_keras := fun _ => Ok (fun _ => Ok [v]);
     CnnPredict.b64decode := fun s =>
       if String.eqb s "a" then Raise (Exception "Incorrect padding") else Ok s;
     CnnPredict.Image_open := fun b =>
       if String.eqb b "GIF?" then Raise (Exception "cannot identify image file")
       else Ok b;
     CnnPredict.mode_RGB := fun _ => true;
     CnnPredict.convert_RGB := fun i => Ok i;
     CnnPredict.resize := fun i _ => Ok i;
     CnnPredict.scaled_array := fun i => Ok i;
     CnnPredict.argsort := Np.argsort_stable |}.

(** A sequence service: the scaler maps [0, 1] to [0, 1000] calories,
    four eating categories, and a model that answers every batch with
    the calorie score [c] and the category scores [v]. *)
Definition scaler : LstmPredict.ScalerParams :=
  {| LstmPredict.scaler_min := [f64 0 0; f64 0 0];
     LstmPredict.scaler_max := [f64 1000 0; f64 24 0] |}.

Definition config : LstmPredict.ModelConfig :=
  {| LstmPredict.food_categories := ["breakfast"; "lunch"; "dinner"; "snack"]%string |}.

Definition constant_model (c : float) (v : list float) : LstmPredict.Model :=
  fun _ => Ok [[[c]]; [v]].

(** A model that, like a Keras model built for input shape (14, 9),
    raises on any other batch. *)
Definition keras_model (c : float) (v : list float) : LstmPredict.Model :=
  fun batch =>
    match Np.shape batch with
    | (1, 14, 9) => Ok [[[c]]; [v]]
    | _ => Raise (ValueError "Input 0 of layer is incompatible with the layer: expected shape=(None, 14, 9)")
    end.

Definition lstm_files (model : LstmPredict.Model) : LstmPredict.Files :=
  {| LstmPredict.model_file := Some model;
     LstmPredict.scaler_file := Some scaler;
     LstmPredict.config_file := Some config |}.

(** The degenerate scaler: min = max = 200. *)
Definition flat_scaler : LstmPredict.ScalerParams :=
  {| LstmPredict.scaler_min := [f64 200 0];
     LstmPredict.scaler_max := [f64 200 0] |}.

Definition flat_files (model : LstmPredict.Model) : LstmPredict.Files :=
  {| LstmPredict.model_file := Some model;
     LstmPredict.scaler_file := Some flat_scaler;
     LstmPredict.config_file := Some config |}.

(** The model binary is there, scaler_params.json is not. *)
Definition files_without_scaler (model : LstmPredict.Model) : LstmPredict.Files :=
  {| LstmPredict.model_file := Some model;
     LstmPredict.scaler_file := None;
     LstmPredict.config_file := Some config |}.

(** A sequence of [steps] time steps of 9 zero features. *)
Definition zeros (steps : nat) : list (list float) :=
  repeat (repeat (S754_zero false) 9) steps.

Definition numbers (xs : list (list float)) : list (list Np.entry) :=
  map (map Np.Number) xs.

(** Scores for five categories, one more than [config] names, the
    maximum at index 4. *)
Definition five_scores : list float :=
  [f32 1 0; f32 1 0; f32 1 0; f32 1 0; f32 2 0].

(** Category scores with the maximum 7/8 at indices 1 and 2. *)
Definition tied_categories : list float :=
  [f32 1 (-3); f32 7 (-3); f32 7 (-3); f32 1 (-2)].

(** An image service over a given disk: the path chosen at import and
    the files that exist when [load_model] runs; the model file, when
    read, loads as the model that answers [v]. *)
Definition cnn_disk (MODEL_PATH : option string) (exists_ : string -> bool)
    (v : list float) : CnnPredict.Env :=
  {| CnnPredict.Bytes := string;
     CnnPredict.Image := string;
     CnnPredict.Array := string;
     CnnPredict.MODEL_PATH := MODEL_PATH;
     CnnPredict.exists_ := exists_;
     CnnPredict.load_keras := fun _ => Ok (fun _ => Ok [v]);
     CnnPredict.b64decode := fun s =>
       if String.eqb s "a" then Raise (Exception "Incorrect padding") else Ok s;
     CnnPredict.Image_open := fun b =>
       if String.eqb b "GIF?" then Raise (Exception "cannot identify image file")
       else Ok b;
     CnnPredict.mode_RGB := fun i => negb (String.eqb i "CMYK");
     CnnPredict.convert_RGB := fun i => Ok ("RGB(" ++ i ++ ")")%string;
     CnnPredict.resize := fun i _ => Ok i;
     CnnPredict.scaled_array := fun i => Ok i;
     CnnPredict.argsort := Np.argsort_stable |}.

(** Scores for 103 classes, two more than the table names, the maximum
    at index 102. *)
Definition oversized : list float :=
  map (fun i => if i =? 102 then f32 3 (-2) else f32 1 (-10)) (seq 0 103).

(** Three scores only. *)
Definition three_scores : list float := [f32 1 (-2); f32 1 (-1); f32 1 (-3)].

(** Whether the strings of a list are pairwise different. *)
Fixpoint distinct (l : list string) : bool :=
  match l with
  | [] => true
  | x :: l' => negb (existsb (String.eqb x) l') && distinct l'
  end.

(** The model binary loads, scaler_params.json is there but is not
    JSON, model_config.json is missing. *)
Definition disk_with_broken_scaler (model : LstmPredict.Model) : LstmLoader.Disk :=
  {| LstmLoader.model_h5 := Some (Ok model);
     LstmLoader.scaler_params_json :=
       Some (Raise (ValueError "Expecting value: line 1 column 1 (char 0)"));
     LstmLoader.model_config_json := None |}.

(** The model binary is there but is not a Keras model; the two JSON
    files are missing. *)
Definition disk_with_broken_model : LstmLoader.Disk :=
  {| LstmLoader.model_h5 :=
       Some (Raise (Exception "file signature not found"));
     LstmLoader.scaler_params_json := None;
     LstmLoader.model_config_json := None |}.


(** A disk for [find_project_root]: the paths that exist. *)
Definition disk (present : list (list string)) (p : list string) : bool :=
  existsb (fun q => if list_eq_dec string_dec q p then true else false) present.

End Examples.


(* ================================================================= *)
(** * Theorems *)

(* ================================================================= *)
(** ** The order on floats *)

Module NpFacts.

Import Np.

Lemma SFeqb_refl (x : float) : SFeqb x x = negb (isnan x).
Proof.
  destruct x as [s | s | | s m e]; try destruct s; unfold SFeqb; simpl;
    try reflexivity;
    rewrite Z.compare_refl;
    change (Pos.compare_cont Eq m m) with (Pos.compare m m);
    rewrite Pos.compare_refl; reflexivity.
Qed.

Lemma less_unfold (x y : float) :
  less x y = SFltb x y || (isnan y && negb (isnan x)).
Proof. unfold less. rewrite !SFeqb_refl, negb_involutive. reflexivity. Qed.

Ltac compare_cases e1 e2 m1 m2 :=
  change (Pos.compare_cont Eq m1 m2) with (Pos.compare m1 m2);
  destruct (Z.compare_spec e1 e2); simpl;
  try destruct (Pos.compare_spec m1 m2); simpl.

Lemma less_key (x y : float) : less x y = true <-> klt (key x) (key y).
Proof.
  rewrite less_unfold.
  destruct x as [s1 | s1 | | s1 m1 e1]; destruct y as [s2 | s2 | | s2 m2 e2];
    try destruct s1; try destruct s2;
    unfold SFltb, klt; simpl;
    try (compare_cases e1 e2 m1 m2);
    split; intros; try lia; try discriminate; try reflexivity.
Qed.

Lemma less_false_key (x y : float) : less x y = false <-> ~ klt (key x) (key y).
Proof.
  rewrite <- less_key. destruct (less x y); split; intros; congruence.
Qed.

Lemma klt_trans a b c : klt a b -> klt b c -> klt a c.
Proof.
  destruct a as [[a1 a2] a3], b as [[b1 b2] b3], c as [[c1 c2] c3].
  unfold klt. lia.
Qed.

Lemma klt_neg_trans a b c : ~ klt b a -> ~ klt c b -> ~ klt c a.
Proof.
  destruct a as [[a1 a2] a3], b as [[b1 b2] b3], c as [[c1 c2] c3].
  unfold klt. lia.
Qed.

Lemma less_irrefl x : less x x = false.
Proof.
  apply less_false_key. destruct (key x) as [[a b] c]. unfold klt. lia.
Qed.

Lemma less_trans x y z : less x y = true -> less y z = true -> less x z = true.
Proof. rewrite !less_key. apply klt_trans. Qed.

(** "not greater" is transitive: the order is total up to equal keys. *)
Lemma not_less_trans x y z :
  less y x = false -> less z y = false -> less z x = false.
Proof. rewrite !less_false_key. apply klt_neg_trans. Qed.

Lemma less_asym x y : less x y = true -> less y x = false.
Proof.
  rewrite less_key, less_false_key.
  destruct (key x) as [[a b] c], (key y) as [[a' b'] c']. unfold klt. lia.
Qed.

Lemma less_not_less_trans x y z :
  less x y = true -> less z y = false -> less x z = true.
Proof.
  rewrite !less_key, less_false_key.
  destruct (key x) as [[a b] c], (key y) as [[a' b'] c'], (key z) as [[a2 b2] c2].
  unfold klt. lia.
Qed.

Lemma not_less_less_trans x y z :
  less y x = false -> less y z = true -> less x z = true.
Proof.
  rewrite !less_key, less_false_key.
  destruct (key x) as [[a b] c], (key y) as [[a' b'] c'], (key z) as [[a2 b2] c2].
  unfold klt. lia.
Qed.

(** On numbers the order is IEEE's. *)
Lemma SFltb_less x y : SFltb x y = true -> less x y = true.
Proof. unfold less. intros ->. reflexivity. Qed.

Lemma less_false_SFltb x y : less x y = false -> SFltb x y = false.
Proof. unfold less. intros H. apply orb_false_iff in H. apply H. Qed.

Lemma less_false_SFleb x y :
  isnan x = false -> isnan y = false -> less x y = false -> SFleb y x = true.
Proof.
  intros Hx Hy H. apply less_false_key in H. revert Hx Hy H.
  destruct x as [s1 | s1 | | s1 m1 e1]; destruct y as [s2 | s2 | | s2 m2 e2];
    try destruct s1; try destruct s2;
    unfold SFleb, klt; simpl;
    try (compare_cases e2 e1 m2 m1);
    intros; try lia; try discriminate; try reflexivity.
Qed.

Lemma SFleb_not_less (x y : float) : SFleb y x = true -> less x y = false.
Proof.
  intros H. apply less_false_key. revert H.
  destruct x as [s1 | s1 | | s1 m1 e1]; destruct y as [s2 | s2 | | s2 m2 e2];
    try destruct s1; try destruct s2;
    unfold SFleb, klt; simpl;
    try (change (Pos.compare_cont Eq m2 m1) with (Pos.compare m2 m1);
         destruct (Z.compare_spec e2 e1); simpl;
         try destruct (Pos.compare_spec m2 m1); simpl);
    intros; try lia; try discriminate.
Qed.

Lemma less_nan_l (x y : float) : isnan x = true -> less x y = false.
Proof.
  destruct x; try discriminate. intros _.
  rewrite less_unfold. destruct y; simpl; auto using andb_false_r.
Qed.

Lemma less_nan_r (x y : float) :
  isnan x = false -> isnan y = true -> less x y = true.
Proof.
  rewrite less_unfold. intros -> ->. apply orb_true_r.
Qed.

Lemma SFleb_false_less (x y : float) :
  isnan x = false -> SFleb y x = false -> less x y = true.
Proof.
  intros Hx H. destruct (less x y) eqn:Hless; [reflexivity |].
  destruct (isnan y) eqn:Hy.
  - rewrite (less_nan_r x y Hx Hy) in Hless. discriminate.
  - rewrite (less_false_SFleb x y Hx Hy Hless) in H. discriminate.
Qed.

(** *** Sorted lists of indices *)

Lemma StronglySorted_app {A : Type} (R : A -> A -> Prop) (l1 l2 : list A) :
  StronglySorted R (l1 ++ l2) <->
  StronglySorted R l1 /\ StronglySorted R l2 /\
  (forall a b, In a l1 -> In b l2 -> R a b).
Proof.
  induction l1 as [| x l1 IH]; simpl.
  - split.
    + intros H. repeat split; [constructor | assumption | contradiction].
    + intros (_ & H & _). assumption.
  - split.
    + intros H. apply StronglySorted_inv in H. destruct H as [Hs Hx].
      apply IH in Hs. destruct Hs as (H1 & H2 & H12).
      rewrite Forall_app in Hx. destruct Hx as [Hx1 Hx2].
      repeat split.
      * constructor; assumption.
      * assumption.
      * intros a b [-> | Ha] Hb.
        -- rewrite Forall_forall in Hx2. auto.
        -- auto.
    + intros (H1 & H2 & H12).
      apply StronglySorted_inv in H1. destruct H1 as [H1 Hx].
      constructor.
      * apply IH. repeat split; auto.
      * rewrite Forall_app. split; [assumption |].
        rewrite Forall_forall. intros b Hb. apply H12; auto.
Qed.

Lemma StronglySorted_rev {A : Type} (R : A -> A -> Prop) (l : list A) :
  StronglySorted R l -> StronglySorted (fun a b => R b a) (rev l).
Proof.
  induction 1 as [| x l Hs IH Hx]; simpl.
  - constructor.
  - apply StronglySorted_app. repeat split.
    + assumption.
    + repeat constructor.
    + intros a b Ha [<- | []]. apply in_rev in Ha.
      rewrite Forall_forall in Hx. auto.
Qed.

Lemma StronglySorted_firstn {A : Type} (R : A -> A -> Prop) (n : nat) (l : list A) :
  StronglySorted R l -> StronglySorted R (firstn n l).
Proof.
  intros H. rewrite <- (firstn_skipn n l) in H.
  apply StronglySorted_app in H. apply H.
Qed.

Lemma StronglySorted_weaken {A : Type} (R Q : A -> A -> Prop) (l : list A) :
  (forall a b, In a l -> In b l -> R a b -> Q a b) ->
  StronglySorted R l -> StronglySorted Q l.
Proof.
  intros HRQ Hs. induction Hs as [| x l Hs IH Hx]; constructor.
  - apply IH. intros a b Ha Hb. apply HRQ; right; assumption.
  - rewrite Forall_forall in *. intros b Hb.
    apply HRQ; [left; reflexivity | right; assumption | auto].
Qed.

(** [l[-n:][::-1]] is the first [n] of the reversed list. *)
Lemma rev_lastn {A : Type} (n : nat) (l : list A) :
  rev (lastn n l) = firstn n (rev l).
Proof. unfold lastn. symmetry. apply firstn_rev. Qed.

(** *** The stable argsort meets both contracts *)

Lemma key_index_le_trans v a b c :
  key_index_le v a b -> key_index_le v b c -> key_index_le v a c.
Proof.
  unfold key_index_le. intros [Hab | [Hab Hle]] [Hbc | [Hbc Hle']].
  - left. eapply less_trans; eassumption.
  - left. eapply less_not_less_trans; eassumption.
  - left. eapply not_less_less_trans; eassumption.
  - right. split; [| lia]. eapply not_less_trans; eassumption.
Qed.

Lemma key_index_le_ascending v a b :
  key_index_le v a b -> less (at_ v b) (at_ v a) = false.
Proof.
  intros [H | [H _]]; [apply less_asym |]; assumption.
Qed.

Lemma insert_index_perm v i l : Permutation (insert_index v i l) (i :: l).
Proof.
  induction l as [| j l IH]; simpl.
  - apply Permutation_refl.
  - destruct (less (at_ v j) (at_ v i)).
    + eapply perm_trans; [apply perm_skip; exact IH | apply perm_swap].
    + apply Permutation_refl.
Qed.

Lemma insert_index_sorted v i l :
  StronglySorted (key_index_le v) l -> Forall (fun j => i < j) l ->
  StronglySorted (key_index_le v) (insert_index v i l).
Proof.
  induction 1 as [| j l Hs IH Hj]; intros Hlt; simpl.
  - repeat constructor.
  - apply Forall_cons_iff in Hlt. destruct Hlt as [Hij Hlt].
    destruct (less (at_ v j) (at_ v i)) eqn:Hless.
    + constructor; [auto |].
      eapply Permutation_Forall.
      * apply Permutation_sym, insert_index_perm.
      * constructor; [left; assumption | assumption].
    + assert (Hle : key_index_le v i j) by (right; split; [assumption | lia]).
      constructor.
      * constructor; assumption.
      * constructor; [assumption |].
        eapply Forall_impl; [| exact Hj].
        intros x Hx. eapply key_index_le_trans; eassumption.
Qed.

Lemma insertion_perm v l : Permutation (fold_right (insert_index v) [] l) l.
Proof.
  induction l as [| i l IH]; simpl.
  - constructor.
  - eapply perm_trans; [apply insert_index_perm | apply perm_skip; exact IH].
Qed.

Lemma insertion_sorted v n s :
  StronglySorted (key_index_le v) (fold_right (insert_index v) [] (seq s n)).
Proof.
  revert s. induction n as [| n IH]; intros s; simpl.
  - constructor.
  - apply insert_index_sorted; [apply IH |].
    eapply Permutation_Forall; [apply Permutation_sym, insertion_perm |].
    rewrite Forall_forall. intros j Hj. apply in_seq in Hj. lia.
Qed.

Lemma argsort_stable_stable : stable_spec argsort_stable.
Proof. intros v. apply insertion_sorted. Qed.

Lemma argsort_stable_spec : argsort_spec argsort_stable.
Proof.
  split; intros v.
  - apply insertion_perm.
  - eapply StronglySorted_weaken; [| apply argsort_stable_stable].
    intros a b _ _. apply key_index_le_ascending.
Qed.

Lemma no_nan_forallb (v : list float) :
  forallb (fun x => negb (isnan x)) v = true ->
  Forall (fun x => isnan x = false) v.
Proof.
  intros H. rewrite forallb_forall in H. apply Forall_forall.
  intros x Hx. apply negb_true_iff. auto.
Qed.

(** *** argmax returns the first maximum *)

Lemma at_app_l (pre ip : list float) (j : nat) :
  j < length pre -> at_ (pre ++ ip) j = at_ pre j.
Proof. intros H. unfold at_. apply app_nth1. exact H. Qed.

Lemma at_app_here (pre ip : list float) (x : float) :
  at_ (pre ++ x :: ip) (length pre) = x.
Proof.
  unfold at_. rewrite app_nth2 by lia. rewrite Nat.sub_diag. reflexivity.
Qed.

(** The scan keeps: [mp] is the score at [max_ind], it is a number, no
    score read so far is greater and every score before [max_ind] is
    smaller. *)
Lemma argmax_scan_first (ip : list float) :
  forall (pre : list float) (mp : float) (max_ind : nat),
    max_ind < length pre ->
    at_ pre max_ind = mp ->
    isnan mp = false ->
    (forall j, j < length pre -> less mp (at_ pre j) = false) ->
    (forall j, j < max_ind -> less (at_ pre j) mp = true) ->
    first_maximum (pre ++ ip) (argmax_scan mp max_ind (length pre) ip).
Proof.
  induction ip as [| x ip IH]; intros pre mp max_ind Hin Hat Hmp Hle Hlt.
  - rewrite app_nil_r. simpl. subst mp. repeat split; assumption.
  - assert (Hsnoc : pre ++ x :: ip = (pre ++ [x]) ++ ip)
      by (rewrite <- app_assoc; reflexivity).
    assert (Hlen : S (length pre) = length (pre ++ [x]))
      by (rewrite length_app; simpl; lia).
    simpl. destruct (SFleb x mp) eqn:Hx; simpl.
    + rewrite Hsnoc, Hlen. apply IH.
      * rewrite <- Hlen. lia.
      * rewrite at_app_l by exact Hin. exact Hat.
      * exact Hmp.
      * intros j Hj. rewrite <- Hlen in Hj.
        destruct (Nat.eq_dec j (length pre)) as [-> | Hne].
        -- rewrite at_app_here. apply SFleb_not_less. exact Hx.
        -- rewrite at_app_l by lia. apply Hle. lia.
      * intros j Hj. rewrite at_app_l by lia. apply Hlt. exact Hj.
    + assert (Hless : less mp x = true) by (apply SFleb_false_less; assumption).
      assert (Hbefore : forall j, j < length pre -> less (at_ pre j) x = true).
      { intros j Hj. eapply not_less_less_trans; [apply Hle; exact Hj | exact Hless]. }
      destruct (isnan x) eqn:Hnan.
      * split; [rewrite length_app; simpl; lia |]. split.
        -- intros i _. rewrite at_app_here. apply less_nan_l. exact Hnan.
        -- intros i Hi. rewrite at_app_here, at_app_l by exact Hi.
           apply Hbefore. exact Hi.
      * rewrite Hsnoc, Hlen. apply IH.
        -- rewrite <- Hlen. lia.
        -- apply at_app_here.
        -- exact Hnan.
        -- intros j Hj. rewrite <- Hlen in Hj.
           destruct (Nat.eq_dec j (length pre)) as [-> | Hne].
           ++ rewrite at_app_here. apply less_irrefl.
           ++ rewrite at_app_l by lia. apply less_asym, Hbefore. lia.
        -- intros j Hj. rewrite at_app_l by exact Hj. apply Hbefore. exact Hj.
Qed.

Lemma argmax_first (v : list float) :
  v <> [] -> exists k, argmax v = Ok k /\ first_maximum v k.
Proof.
  destruct v as [| x ip]; [congruence | intros _].
  unfold argmax. destruct (isnan x) eqn:Hnan.
  - exists 0. split; [reflexivity |]. split; [simpl; lia |]. split.
    + intros i _. apply less_nan_l. exact Hnan.
    + intros i Hi. lia.
  - eexists. split; [reflexivity |].
    apply (argmax_scan_first ip [x] x 0).
    + simpl. lia.
    + reflexivity.
    + exact Hnan.
    + intros j Hj. simpl in Hj. replace j with 0 by lia. apply less_irrefl.
    + intros j Hj. lia.
Qed.

Lemma argmax_empty : exists msg, argmax [] = Raise (ValueError msg).
Proof. eexists. reflexivity. Qed.

(** There is one first maximum. *)
Lemma first_maximum_unique (v : list float) (k k' : nat) :
  first_maximum v k -> first_maximum v k' -> k = k'.
Proof.
  intros (Hk & Hmax & Hfirst) (Hk' & Hmax' & Hfirst').
  destruct (Nat.lt_trichotomy k k') as [Hlt | [Heq | Hgt]]; [| exact Heq |]; exfalso.
  - specialize (Hfirst' k Hlt). rewrite (Hmax k' Hk') in Hfirst'. discriminate.
  - specialize (Hfirst k' Hgt). rewrite (Hmax' k Hk) in Hfirst. discriminate.
Qed.

(** When the vector has an IEEE maximum, the first maximum is the
    lowest index that holds it. *)
Lemma first_maximum_lowest (v : list float) (k i : nat) :
  first_maximum v k -> is_maximum v i -> is_maximum v k /\ k <= i.
Proof.
  intros (Hk & Hmax & Hfirst) [Hi Himax]. split.
  - split; [exact Hk |]. intros x Hx.
    assert (Hnn : forall j, j < length v -> isnan (at_ v j) = false).
    { intros j Hj. specialize (Himax j Hj).
      destruct (at_ v j); try reflexivity. discriminate Himax. }
    apply less_false_SFleb; auto.
  - destruct (Nat.le_gt_cases k i) as [Hle | Hgt]; [exact Hle | exfalso].
    specialize (Hfirst i Hgt).
    rewrite (SFleb_not_less _ _ (Himax k Hk)) in Hfirst. discriminate.
Qed.

End NpFacts.

(* ================================================================= *)
(** ** Python primitives *)

Module PyFacts.

Lemma getitem_nth {A : Type} (l : list A) (i : nat) (d : A) :
  i < length l -> getitem l i = Ok (nth i l d).
Proof.
  intros H. unfold getitem. rewrite (nth_error_nth' l d H). reflexivity.
Qed.

Lemma for_each_map {A B : Type} (f : A -> result B) (g : A -> B) (l : list A) :
  (forall x, In x l -> f x = Ok (g x)) -> for_each f l = Ok (map g l).
Proof.
  induction l as [| x l IH]; intros H; simpl.
  - reflexivity.
  - rewrite (H x) by (left; reflexivity). simpl.
    rewrite IH by (intros y Hy; apply H; right; assumption).
    reflexivity.
Qed.

Lemma In_firstn {A : Type} (n : nat) (l : list A) (x : A) :
  In x (firstn n l) -> In x l.
Proof.
  intros H. rewrite <- (firstn_skipn n l). apply in_or_app. left. exact H.
Qed.

Lemma StronglySorted_map {A B : Type} (R : B -> B -> Prop) (f : A -> B) (l : list A) :
  StronglySorted (fun a b => R (f a) (f b)) l -> StronglySorted R (map f l).
Proof.
  induction 1 as [| x l Hs IH Hx]; simpl; constructor.
  - assumption.
  - rewrite Forall_map. assumption.
Qed.

(** A loop that raises does so with the exception of one of its
    elements, and raises as soon as one element does. *)
Lemma for_each_raise_origin {A B : Type} (f : A -> result B) (l : list A) (e : exn) :
  for_each f l = Raise e -> exists y, In y l /\ f y = Raise e.
Proof.
  induction l as [| x l IH]; simpl; [discriminate |].
  destruct (f x) as [b | e'] eqn:Hx; cbn [bind].
  - destruct (for_each f l) as [bs | e'']; cbn [bind]; [discriminate |].
    intros H. injection H as ->.
    destruct (IH eq_refl) as (y & Hy & Hfy). exists y. auto.
  - intros H. injection H as ->. exists x. auto.
Qed.

Lemma for_each_raises {A B : Type} (f : A -> result B) (l : list A) (x : A) (e0 : exn) :
  In x l -> f x = Raise e0 -> exists e, for_each f l = Raise e.
Proof.
  induction l as [| a l IH]; simpl; [contradiction |].
  intros Hin Hx. destruct (f a) as [b | e'] eqn:Ha; cbn [bind].
  - destruct Hin as [-> | Hin]; [congruence |].
    destruct (IH Hin Hx) as [e He]. rewrite He. exists e. reflexivity.
  - exists e'. reflexivity.
Qed.

Lemma getitem_ok {A : Type} (l : list A) (i : nat) (a d : A) :
  getitem l i = Ok a -> i < length l /\ nth i l d = a.
Proof.
  unfold getitem. destruct (nth_error l i) as [b |] eqn:H; [| discriminate].
  intros Hb. injection Hb as ->. split.
  - apply nth_error_Some. congruence.
  - apply nth_error_nth. exact H.
Qed.

(** A loop that returns is the map of what each element returned. *)
Lemma for_each_ok_map {A B : Type} (f : A -> result B) (g : A -> B)
    (P : A -> Prop) (l : list A) (ys : list B) :
  (forall x y, f x = Ok y -> y = g x /\ P x) ->
  for_each f l = Ok ys -> ys = map g l /\ Forall P l.
Proof.
  intros Hf. revert ys. induction l as [| x l IH]; simpl; intros ys H.
  - injection H as <-. auto.
  - destruct (f x) as [y |] eqn:Hx; cbn [bind] in H; [| discriminate].
    destruct (for_each f l) as [ys' |]; cbn [bind] in H; [| discriminate].
    injection H as <-. destruct (Hf x y Hx) as [-> HP].
    destruct (IH ys' eq_refl) as [-> HPl]. auto.
Qed.

End PyFacts.

(* ================================================================= *)
(** ** cnn_predict.py: ranking of the scores *)

Module CnnFacts.

Import Np NpFacts PyFacts CnnPredict.

Lemma FOOD_CLASSES_length : length FOOD_CLASSES = NUM_CLASSES.
Proof. reflexivity. Qed.

(** [predict] is the ranking applied to what the model returned. *)
Lemma predict_rank (E : Env) (_model : option (Model E)) (image_base64 : string) :
  snd (predict E _model image_base64)
  = bind (model_output E _model image_base64) (rank E).
Proof.
  unfold predict, model_output.
  destruct (load_model E _model) as [st [m | e]]; simpl; [| reflexivity].
  destruct (preprocess_image E image_base64) as [arr | e]; simpl; [| reflexivity].
  destruct (m arr); reflexivity.
Qed.

Section Ranking.

Variable E : Env.
Hypothesis Hargsort : argsort_spec (argsort E).

Lemma descending_perm v : Permutation (descending E v) (seq 0 (length v)).
Proof.
  eapply perm_trans; [apply Permutation_sym, Permutation_rev |].
  apply (argsort_perm Hargsort).
Qed.

Lemma descending_sorted v :
  StronglySorted (fun a b => less (at_ v a) (at_ v b) = false) (descending E v).
Proof. apply StronglySorted_rev, (argsort_ascending Hargsort). Qed.

Lemma descending_in_range v i : In i (descending E v) <-> i < length v.
Proof.
  split; intros H.
  - eapply Permutation_in in H; [| apply descending_perm].
    apply in_seq in H. lia.
  - eapply Permutation_in; [apply Permutation_sym, descending_perm |].
    apply in_seq. lia.
Qed.

Lemma descending_length v : length (descending E v) = length v.
Proof.
  rewrite (Permutation_length (descending_perm v)). apply length_seq.
Qed.

(** The value of the ranking on a vector with a score for each class at
    most: nothing raises, rank 0 is the head of the descending order. *)
Lemma rank_value (v : list float) (rest : list (list float)) :
  0 < length v <= NUM_CLASSES ->
  exists k tail,
    descending E v = k :: tail /\
    rank E (v :: rest) =
      Ok {| class := nth k FOOD_CLASSES EmptyString;
            display := replace "_" " " (nth k FOOD_CLASSES EmptyString);
            confidence := at_ v k;
            top_5 := map (ranked v) (firstn 5 (descending E v)) |}.
Proof.
  intros Hlen.
  assert (Hin : forall i, In i (descending E v) -> i < length v)
    by (intros i; apply descending_in_range).
  destruct (descending E v) as [| k tail] eqn:HD.
  - pose proof (descending_length v) as HL. rewrite HD in HL. simpl in HL. lia.
  - exists k, tail. split; [reflexivity |].
    assert (Hk : k < length v) by (apply Hin; left; reflexivity).
    unfold rank. change (getitem (v :: rest) 0) with (Ok v). cbn [bind].
    rewrite rev_lastn. fold (descending E v). rewrite HD.
    change (getitem (firstn 5 (k :: tail)) 0) with (Ok k). cbn [bind].
    rewrite (getitem_nth FOOD_CLASSES k EmptyString)
      by (rewrite FOOD_CLASSES_length; lia). cbn [bind].
    rewrite (getitem_nth v k S754_nan Hk). cbn [bind].
    rewrite (for_each_map _ (ranked v)).
    + reflexivity.
    + intros idx Hidx.
      assert (Hi : idx < length v).
      { apply Hin. eapply In_firstn. exact Hidx. }
      rewrite (getitem_nth FOOD_CLASSES idx EmptyString)
        by (rewrite FOOD_CLASSES_length; lia). cbn [bind].
      rewrite (getitem_nth v idx S754_nan Hi). reflexivity.
Qed.

(** Rank 0 is never exceeded by another score. *)
Lemma head_not_less (v : list float) (k : nat) (tail : list nat) :
  descending E v = k :: tail ->
  forall i, i < length v -> less (at_ v k) (at_ v i) = false.
Proof.
  intros HD i Hi.
  pose proof (descending_sorted v) as Hs. rewrite HD in Hs.
  apply StronglySorted_inv in Hs. destruct Hs as [_ Hk].
  apply descending_in_range in Hi. rewrite HD in Hi.
  destruct Hi as [<- | Hi].
  - apply less_irrefl.
  - rewrite Forall_forall in Hk. auto.
Qed.

End Ranking.

(** The checkers decide the two predicates on scores. *)
Lemma is_maximumb_spec (v : list float) (i : nat) :
  is_maximumb v i = true -> is_maximum v i.
Proof.
  unfold is_maximumb, is_maximum. intros H.
  apply andb_true_iff in H. destruct H as [Hi Hall].
  apply Nat.ltb_lt in Hi. split; [assumption |].
  intros k Hk. rewrite forallb_forall in Hall.
  apply Hall. apply nth_In. assumption.
Qed.

Lemma is_unique_maximumb_spec (v : list float) (m : nat) :
  is_unique_maximumb v m = true -> is_unique_maximum v m.
Proof.
  unfold is_unique_maximumb, is_unique_maximum. intros H.
  apply andb_true_iff in H. destruct H as [Hm Hall].
  apply Nat.ltb_lt in Hm. split; [assumption |].
  intros k Hk Hne. rewrite forallb_forall in Hall.
  assert (Hin : In k (seq 0 (length v))) by (apply in_seq; lia).
  apply Hall in Hin. apply orb_true_iff in Hin. destruct Hin as [Heq | Hlt].
  - apply Nat.eqb_eq in Heq. contradiction.
  - assumption.
Qed.

Lemma is_maximum_no_nan (v : list float) (i k : nat) :
  is_maximum v i -> k < length v -> isnan (at_ v k) = false.
Proof.
  intros [_ H] Hk. specialize (H k Hk).
  destruct (at_ v k); try reflexivity.
  unfold SFleb in H. simpl in H. discriminate.
Qed.

Lemma top_5_scores (v : list float) (l : list nat) :
  map score (map (ranked v) l) = map (at_ v) l.
Proof. rewrite map_map. reflexivity. Qed.

(** C3.  For every score vector of length 101 the model returns, the
    result of [predict] has a [top_5] of exactly five entries whose
    scores never increase from one entry to a later one (no later score
    is [>] an earlier one); when no score is NaN, each later score is
    [<=] each earlier one. *)
Theorem top_5_length_and_order
    (E : Env) (_model : option (Model E)) (image_base64 : string)
    (v : list float) (rest : list (list float)) :
  argsort_spec (argsort E) ->
  model_output E _model image_base64 = Ok (v :: rest) ->
  length v = 101 ->
  exists r,
    snd (predict E _model image_base64) = Ok r /\
    length (top_5 r) = 5 /\
    StronglySorted (fun a b => SFltb a b = false) (map score (top_5 r)) /\
    (Forall (fun x => isnan x = false) v ->
     StronglySorted (fun a b => SFleb b a = true) (map score (top_5 r))).
Proof.
  intros Hspec Hout Hlen.
  destruct (rank_value E Hspec v rest) as (k & tail & HD & Hr).
  { rewrite Hlen. unfold NUM_CLASSES. lia. }
  rewrite predict_rank, Hout. cbn [bind]. rewrite Hr.
  eexists. split; [reflexivity |]. cbn [top_5].
  pose proof (StronglySorted_firstn _ 5 _ (descending_sorted E Hspec v)) as Hs.
  repeat split.
  - rewrite length_map, length_firstn, (descending_length E Hspec), Hlen.
    reflexivity.
  - rewrite top_5_scores. apply StronglySorted_map.
    eapply StronglySorted_weaken; [| exact Hs].
    intros a b _ _. apply less_false_SFltb.
  - intros Hnan. rewrite top_5_scores. apply StronglySorted_map.
    eapply StronglySorted_weaken; [| exact Hs].
    intros a b Ha Hb Hab.
    assert (Hnn : forall i, In i (firstn 5 (descending E v)) ->
                            isnan (at_ v i) = false).
    { intros i Hi. apply In_firstn, (descending_in_range E Hspec) in Hi.
      rewrite Forall_forall in Hnan. apply Hnan, nth_In, Hi. }
    apply less_false_SFleb; auto.
Qed.

(** C6.  For every score vector of length 101 with a unique maximum at
    index [m], the result's [confidence] is the score at [m] and its
    [class] is entry [m] of FOOD_CLASSES. *)
Theorem unique_maximum_class_confidence
    (E : Env) (_model : option (Model E)) (image_base64 : string)
    (v : list float) (rest : list (list float)) (m : nat) :
  argsort_spec (argsort E) ->
  model_output E _model image_base64 = Ok (v :: rest) ->
  length v = 101 ->
  is_unique_maximum v m ->
  exists r,
    snd (predict E _model image_base64) = Ok r /\
    confidence r = at_ v m /\
    nth_error FOOD_CLASSES m = Some (class r).
Proof.
  intros Hspec Hout Hlen [Hm Hmax].
  destruct (rank_value E Hspec v rest) as (k & tail & HD & Hr).
  { rewrite Hlen. unfold NUM_CLASSES. lia. }
  rewrite predict_rank, Hout. cbn [bind]. rewrite Hr.
  eexists. split; [reflexivity |]. cbn [confidence class].
  assert (Hk : k = m).
  { destruct (Nat.eq_dec k m) as [| Hne]; [assumption | exfalso].
    assert (Hkr : k < length v).
    { apply (descending_in_range E Hspec). rewrite HD. left. reflexivity. }
    pose proof (head_not_less E Hspec v k tail HD m Hm) as Hnl.
    rewrite (SFltb_less _ _ (Hmax k Hkr Hne)) in Hnl. discriminate. }
  subst k. split; [reflexivity |].
  apply nth_error_nth'. rewrite FOOD_CLASSES_length. unfold NUM_CLASSES. lia.
Qed.

(** C1, as the code has it.  When the maximum is held at two indices
    [i < j], rank 0 of [top_5] is an index [k] that holds the maximum;
    [class] is its label and [confidence] its score.  Which of the
    indices holding the maximum it is is left to np.argsort: line 129
    asks for no kind of sort, and the code adds no tie-break of its
    own. *)
Theorem tie_rank0_holds_a_maximum
    (E : Env) (_model : option (Model E)) (image_base64 : string)
    (v : list float) (rest : list (list float)) (i j : nat) :
  argsort_spec (argsort E) ->
  model_output E _model image_base64 = Ok (v :: rest) ->
  length v = 101 ->
  i < j -> is_maximum v i -> is_maximum v j ->
  exists r k,
    snd (predict E _model image_base64) = Ok r /\
    nth_error (top_5 r) 0 = Some (ranked v k) /\
    class r = nth k FOOD_CLASSES EmptyString /\
    confidence r = at_ v k /\
    is_maximum v k.
Proof.
  intros Hspec Hout Hlen Hij Hi Hj.
  destruct (rank_value E Hspec v rest) as (k & tail & HD & Hr).
  { rewrite Hlen. unfold NUM_CLASSES. lia. }
  rewrite predict_rank, Hout. cbn [bind]. rewrite Hr.
  assert (Hkr : k < length v).
  { apply (descending_in_range E Hspec). rewrite HD. left. reflexivity. }
  eexists. exists k. split; [reflexivity |]. cbn [top_5 class confidence].
  rewrite HD.
  split; [reflexivity |]. split; [reflexivity |]. split; [reflexivity |].
  split; [exact Hkr |].
  intros x Hx. apply less_false_SFleb.
  - apply (is_maximum_no_nan v i k Hi Hkr).
  - apply (is_maximum_no_nan v i x Hi Hx).
  - apply (head_not_less E Hspec v k tail HD x Hx).
Qed.

Lemma top_5_length_and_order_witness :
  length (Examples.peaked 42) = 101 /\
  exists r,
    snd (predict (Examples.cnn_env (Examples.peaked 42)) None "aGk=") = Ok r /\
    length (top_5 r) = 5 /\
    StronglySorted (fun a b => SFltb a b = false) (map score (top_5 r)) /\
    StronglySorted (fun a b => SFleb b a = true) (map score (top_5 r)).
Proof.
  split; [reflexivity |].
  destruct (top_5_length_and_order (Examples.cnn_env (Examples.peaked 42))
              None "aGk=" (Examples.peaked 42) [])
    as (r & Hr & Hlen & Hlt & Hle).
  - apply argsort_stable_spec.
  - vm_compute. reflexivity.
  - vm_compute. reflexivity.
  - exists r. split; [exact Hr |]. split; [exact Hlen |]. split; [exact Hlt |].
    apply Hle. apply no_nan_forallb. vm_compute. reflexivity.
Defined.

Lemma unique_maximum_class_confidence_witness :
  is_unique_maximum (Examples.peaked 42) 42 /\
  exists r,
    snd (predict (Examples.cnn_env (Examples.peaked 42)) None "aGk=") = Ok r /\
    confidence r = at_ (Examples.peaked 42) 42 /\
    nth_error FOOD_CLASSES 42 = Some (class r).
Proof.
  split; [apply is_unique_maximumb_spec; vm_compute; reflexivity |].
  apply (unique_maximum_class_confidence (Examples.cnn_env (Examples.peaked 42))
           None "aGk=" (Examples.peaked 42) [] 42).
  - apply argsort_stable_spec.
  - vm_compute. reflexivity.
  - vm_compute. reflexivity.
  - apply is_unique_maximumb_spec. vm_compute. reflexivity.
Defined.

Lemma tie_rank0_holds_a_maximum_witness :
  is_maximum Examples.twin 3 /\ is_maximum Examples.twin 7 /\
  exists r k,
    snd (predict (Examples.cnn_env Examples.twin) None "aGk=") = Ok r /\
    nth_error (top_5 r) 0 = Some (ranked Examples.twin k) /\
    class r = nth k FOOD_CLASSES EmptyString /\
    confidence r = at_ Examples.twin k /\
    is_maximum Examples.twin k.
Proof.
  split; [apply is_maximumb_spec; vm_compute; reflexivity |].
  split; [apply is_maximumb_spec; vm_compute; reflexivity |].
  apply (tie_rank0_holds_a_maximum (Examples.cnn_env Examples.twin)
           None "aGk=" Examples.twin [] 3 7).
  - apply argsort_stable_spec.
  - vm_compute. reflexivity.
  - vm_compute. reflexivity.
  - lia.
  - apply is_maximumb_spec. vm_compute. reflexivity.
  - apply is_maximumb_spec. vm_compute. reflexivity.
Defined.

(** C1 as stated fails.  On the vector of 101 equal scores every index
    holds the maximum, indices 0 and 100 among them, and the ascending
    order that argsort returns ends with index 100: rank 0 is index 100
    ("waffles"), not the lower index 0 ("apple_pie"). *)
Lemma all_equal_scores_rank_index_100_first :
  argsort_spec (argsort (Examples.cnn_env Examples.uniform)) /\
  length Examples.uniform = 101 /\
  0 < 100 /\ is_maximum Examples.uniform 0 /\ is_maximum Examples.uniform 100 /\
  exists r,
    snd (predict (Examples.cnn_env Examples.uniform) None "aGk=") = Ok r /\
    nth_error (top_5 r) 0 = Some (ranked Examples.uniform 100) /\
    class r = "waffles"%string /\
    nth_error FOOD_CLASSES 0 = Some "apple_pie"%string /\
    class r <> "apple_pie"%string.
Proof.
  split; [apply argsort_stable_spec |].
  split; [reflexivity |].
  split; [lia |].
  split; [apply is_maximumb_spec; vm_compute; reflexivity |].
  split; [apply is_maximumb_spec; vm_compute; reflexivity |].
  eexists. split; [vm_compute; reflexivity |].
  repeat split; try reflexivity. discriminate.
Qed.

(** *** The display label *)

Lemma replace_get (s : string) (n : nat) :
  String.get n (replace "_"%char " "%char s)
  = option_map (fun c => if Ascii.eqb c "_"%char then " "%char else c)
               (String.get n s).
Proof.
  revert n. induction s as [| c s IH]; intros n; simpl.
  - reflexivity.
  - destruct n as [| n]; simpl; [reflexivity | apply IH].
Qed.

Lemma replace_length (s : string) :
  String.length (replace "_"%char " "%char s) = String.length s.
Proof. induction s as [| c s IH]; simpl; congruence. Qed.

Lemma replace_idempotent (s : string) :
  replace "_"%char " "%char (replace "_"%char " "%char s)
  = replace "_"%char " "%char s.
Proof.
  induction s as [| c s IH]; simpl; [reflexivity |].
  rewrite IH. f_equal.
  destruct (Ascii.eqb c "_"%char) eqn:Hc; [reflexivity |].
  rewrite Hc. reflexivity.
Qed.

Lemma replace_no_underscore (s : string) :
  ~ In "_"%char (list_ascii_of_string s) ->
  replace "_"%char " "%char s = s.
Proof.
  induction s as [| c s IH]; simpl; intros H; [reflexivity |].
  destruct (Ascii.eqb_spec c "_"%char) as [-> | Hne].
  - exfalso. apply H. left. reflexivity.
  - f_equal. apply IH. intros Hin. apply H. right. exact Hin.
Qed.

Lemma replace_removes (s : string) :
  ~ In "_"%char (list_ascii_of_string (replace "_"%char " "%char s)).
Proof.
  induction s as [| c s IH]; simpl; [tauto |].
  intros [Heq | Hin]; [| contradiction].
  destruct (Ascii.eqb_spec c "_"%char) as [-> | Hne].
  - discriminate.
  - congruence.
Qed.

Lemma rank_display (E : Env) (predictions : list (list float)) (r : Prediction) :
  rank E predictions = Ok r -> display r = replace "_"%char " "%char (class r).
Proof.
  unfold rank. intros H.
  repeat match type of H with
         | bind ?c _ = Ok _ => destruct c; cbn [bind] in H; [| discriminate]
         end.
  injection H as <-. reflexivity.
Qed.

(** C7.  The display label is the class name with every underscore
    turned into a space and every other character kept, position by
    position; the transform is a function on all strings, applying it
    twice is applying it once, a string without underscore is returned
    as it is, "chicken_curry" gives "chicken curry", and it is what
    [predict] puts under 'label'. *)
Theorem display_label_transform :
  (forall s n,
     String.get n (replace "_"%char " "%char s)
     = option_map (fun c => if Ascii.eqb c "_"%char then " "%char else c)
                  (String.get n s)) /\
  (forall s, String.length (replace "_"%char " "%char s) = String.length s) /\
  (forall s, ~ In "_"%char (list_ascii_of_string (replace "_"%char " "%char s))) /\
  (forall s, replace "_"%char " "%char (replace "_"%char " "%char s)
             = replace "_"%char " "%char s) /\
  (forall s, ~ In "_"%char (list_ascii_of_string s) ->
             replace "_"%char " "%char s = s) /\
  replace "_"%char " "%char "chicken_curry" = "chicken curry"%string /\
  (forall E _model image_base64 r,
     snd (predict E _model image_base64) = Ok r ->
     display r = replace "_"%char " "%char (class r)).
Proof.
  split; [exact replace_get |].
  split; [exact replace_length |].
  split; [exact replace_removes |].
  split; [exact replace_idempotent |].
  split; [exact replace_no_underscore |].
  split; [reflexivity |].
  intros E _model image_base64 r H. rewrite predict_rank in H.
  destruct (model_output E _model image_base64) as [p | e];
    cbn [bind] in H; [| discriminate].
  eapply rank_display. exact H.
Qed.

Lemma display_label_transform_witness :
  replace "_"%char " "%char "pizza" = "pizza"%string /\
  (exists r,
     display r = replace "_"%char " "%char (class r) /\
     snd (predict (Examples.cnn_env (Examples.peaked 18)) None "aGk=") = Ok r /\
     class r = "chicken_curry"%string /\
     display r = "chicken curry"%string).
Proof.
  destruct display_label_transform as (_ & _ & _ & _ & Hsame & _ & Hpredict).
  split.
  - apply (Hsame "pizza"%string). vm_compute.
    intros H. repeat (destruct H as [H | H]; [discriminate H |]). exact H.
  - eexists. split.
    + apply (Hpredict (Examples.cnn_env (Examples.peaked 18)) None "aGk="%string).
      vm_compute. reflexivity.
    + repeat split; reflexivity.
Defined.

(** *** Decoding failures *)

Lemma preprocess_image_wraps (E : Env) (image_base64 : string) (cause : exn) :
  preprocess_steps E image_base64 = Raise cause ->
  preprocess_image E image_base64
  = Raise (ValueError ("Failed to preprocess image: " ++ str cause)%string).
Proof. unfold preprocess_image. intros ->. reflexivity. Qed.

(** C8.  When base64 decoding or the reading of the image container
    raises, [preprocess_image] raises a ValueError that carries the
    cause's message, and the endpoint answers the request with a JSON
    error object and status 400 or 500 instead of letting the exception
    through; with the model loaded and a non-empty string the answer is
    that ValueError's message with status 500. *)
Theorem decode_failure_is_caught
    (E : Env) (_model : option (Model E)) (image_base64 : string) (cause : exn) :
  (b64decode E image_base64 = Raise cause \/
   exists image_data,
     b64decode E image_base64 = Ok image_data /\
     Image_open E image_data = Raise cause) ->
  preprocess_image E image_base64
  = Raise (ValueError ("Failed to preprocess image: " ++ str cause)%string) /\
  forall data,
    get data "image" = Some image_base64 ->
    exists error status,
      snd (predict_endpoint E _model (Ok (Some data))) = (JsonError error, status) /\
      (status = 400 \/ status = 500) /\
      (forall model,
         snd (load_model E _model) = Ok model -> image_base64 <> EmptyString ->
         error = ("Failed to preprocess image: " ++ str cause)%string /\
         status = 500).
Proof.
  intros Hfail.
  assert (Hpre : preprocess_image E image_base64
                 = Raise (ValueError ("Failed to preprocess image: " ++ str cause)%string)).
  { apply preprocess_image_wraps. unfold preprocess_steps.
    destruct Hfail as [H | (image_data & H1 & H2)].
    - rewrite H. reflexivity.
    - rewrite H1. cbn [bind]. rewrite H2. reflexivity. }
  split; [exact Hpre |].
  intros data Hget.
  destruct data as [| member data]; [discriminate Hget |].
  unfold predict_endpoint. rewrite Hget.
  destruct image_base64 as [| c image_base64'].
  - do 2 eexists. split; [reflexivity |]. split; [left; reflexivity |].
    intros _ _ Hne. contradiction.
  - unfold predict.
    destruct (load_model E _model) as [st [model | e]]; cbn [bind snd].
    + rewrite Hpre. cbn [bind].
      do 2 eexists. split; [reflexivity |]. split; [right; reflexivity |].
      intros _ _ _. split; reflexivity.
    + do 2 eexists. split; [reflexivity |]. split; [right; reflexivity |].
      intros model Hm. discriminate Hm.
Qed.

Lemma decode_failure_is_caught_witness :
  b64decode (Examples.cnn_env Examples.uniform) "a"
  = Raise (Exception "Incorrect padding") /\
  preprocess_image (Examples.cnn_env Examples.uniform) "a"
  = Raise (ValueError "Failed to preprocess image: Incorrect padding") /\
  snd (predict_endpoint (Examples.cnn_env Examples.uniform) None
         (Ok (Some [("image", "a")]%string)))
  = (JsonError "Failed to preprocess image: Incorrect padding", 500).
Proof.
  split; [reflexivity |].
  destruct (decode_failure_is_caught (Examples.cnn_env Examples.uniform) None
              "a" (Exception "Incorrect padding")) as [Hpre Hend].
  - left. reflexivity.
  - split; [exact Hpre |].
    destruct (Hend [("image", "a")]%string eq_refl)
      as (error & status & Hresponse & _ & Hloaded).
    destruct (Hloaded (fun _ => Ok [Examples.uniform]) eq_refl) as [-> ->].
    + discriminate.
    + exact Hresponse.
Defined.

(* ----------------------------------------------------------------- *)
(** *** The model cache *)

(** The two outcomes of [load_model]. *)
Lemma load_model_outcomes (E : Env) (_model cache : option (Model E)) :
  (forall e, load_model E _model = (cache, Raise e) ->
             _model = None /\ cache = None) /\
  (forall m, load_model E _model = (cache, Ok m) ->
             cache = Some m /\ load_model E cache = (cache, Ok m)).
Proof.
  unfold load_model. split.
  - intros e H. destruct _model as [m |]; [discriminate |].
    destruct (MODEL_PATH E) as [p |].
    + destruct (exists_ E p).
      * destruct (load_keras E p); [discriminate |]. injection H as <- _. auto.
      * injection H as <- _. auto.
    + injection H as <- _. auto.
  - intros m H. destruct _model as [m0 |].
    + injection H as <- <-. auto.
    + destruct (MODEL_PATH E) as [p |]; [| discriminate].
      destruct (exists_ E p); [| discriminate].
      destruct (load_keras E p); [| discriminate].
      injection H as <- <-. auto.
Qed.

(** A failed [load_model] leaves the cache empty, so the next call goes
    to the disk again; a successful one leaves the model in the cache,
    and every later call returns that model. *)
Theorem load_model_cache (E : Env) (_model cache : option (Model E)) :
  (forall e, load_model E _model = (cache, Raise e) ->
             _model = None /\ cache = None) /\
  (forall m, load_model E _model = (cache, Ok m) ->
             cache = Some m /\ load_model E cache = (cache, Ok m)).
Proof. exact (load_model_outcomes E _model cache). Qed.

Lemma load_model_cache_witness :
  (load_model (Examples.cnn_disk None (fun _ => false) Examples.uniform) None
   = (None, Raise (FileNotFoundError "CNN model not found. Expected at: None"))) /\
  (load_model (Examples.cnn_env Examples.uniform) None
   = (Some (fun _ => Ok [Examples.uniform]),
      Ok (fun _ => Ok [Examples.uniform])) /\
   load_model (Examples.cnn_env Examples.uniform)
     (Some (fun _ => Ok [Examples.uniform]))
   = (Some (fun _ => Ok [Examples.uniform]),
      Ok (fun _ => Ok [Examples.uniform]))).
Proof.
  split; [reflexivity |]. split; [reflexivity |].
  apply (load_model_cache (Examples.cnn_env Examples.uniform) None
           (Some (fun _ => Ok [Examples.uniform]))).
  reflexivity.
Defined.

(** With the disk as it was when the module was imported, [load_model]
    raises FileNotFoundError exactly when neither candidate file is
    there, and its message then names no path ("Expected at: None");
    otherwise it reads the first candidate that is there. *)
Theorem load_model_on_unchanged_disk (E : Env) (script_dir : string) :
  MODEL_PATH E = select_model_path (exists_ E) script_dir ->
  (exists_ E (MODEL_DIR script_dir ++ "/food_classifier_best.keras") = false ->
   exists_ E (MODEL_DIR_ALT script_dir ++ "/food_classifier_best.keras") = false ->
   load_model E None
   = (None, Raise (FileNotFoundError "CNN model not found. Expected at: None"))) /\
  (exists_ E (MODEL_DIR script_dir ++ "/food_classifier_best.keras") = true ->
   load_model E None
   = match load_keras E (MODEL_DIR script_dir ++ "/food_classifier_best.keras") with
     | Ok m => (Some m, Ok m)
     | Raise e => (None, Raise e)
     end) /\
  (exists_ E (MODEL_DIR script_dir ++ "/food_classifier_best.keras") = false ->
   exists_ E (MODEL_DIR_ALT script_dir ++ "/food_classifier_best.keras") = true ->
   load_model E None
   = match load_keras E (MODEL_DIR_ALT script_dir ++ "/food_classifier_best.keras") with
     | Ok m => (Some m, Ok m)
     | Raise e => (None, Raise e)
     end).
Proof.
  intros Hpath. unfold load_model. rewrite Hpath. unfold select_model_path.
  split; [| split].
  - intros -> ->. reflexivity.
  - intros H. rewrite H, H. reflexivity.
  - intros H1 H2. rewrite H1, H2, H2. reflexivity.
Qed.

Lemma load_model_on_unchanged_disk_witness :
  load_model
    (Examples.cnn_disk
       (select_model_path
          (String.eqb "/srv/notebooks/data/models/cnn/food_classifier_best.keras")
          "/srv")
       (String.eqb "/srv/notebooks/data/models/cnn/food_classifier_best.keras")
       Examples.uniform)
    None
  = (Some (fun _ => Ok [Examples.uniform]), Ok (fun _ => Ok [Examples.uniform])).
Proof.
  destruct (load_model_on_unchanged_disk
              (Examples.cnn_disk
                 (select_model_path
                    (String.eqb "/srv/notebooks/data/models/cnn/food_classifier_best.keras")
                    "/srv")
                 (String.eqb "/srv/notebooks/data/models/cnn/food_classifier_best.keras")
                 Examples.uniform)
              "/srv" eq_refl) as (_ & _ & Halt).
  rewrite Halt; reflexivity.
Defined.

(* ----------------------------------------------------------------- *)
(** *** The image decoder *)

(** [preprocess_image] returns only an array made from the decoded
    image, converted to RGB when its mode is another, then resized to
    224 x 224; and it raises nothing but a ValueError whose message is
    "Failed to preprocess image: " followed by the message of the
    library call that failed. *)
Theorem preprocess_image_contract (E : Env) (image_base64 : string) :
  (forall img_array,
     preprocess_image E image_base64 = Ok img_array ->
     exists image_data image rgb resized,
       b64decode E image_base64 = Ok image_data /\
       Image_open E image_data = Ok image /\
       (if mode_RGB E image then rgb = image else convert_RGB E image = Ok rgb) /\
       resize E rgb (224, 224) = Ok resized /\
       scaled_array E resized = Ok img_array) /\
  (forall e,
     preprocess_image E image_base64 = Raise e ->
     exists cause,
       e = ValueError ("Failed to preprocess image: " ++ str cause)%string /\
       (b64decode E image_base64 = Raise cause \/
        (exists image_data, Image_open E image_data = Raise cause) \/
        (exists image, mode_RGB E image = false /\ convert_RGB E image = Raise cause) \/
        (exists rgb, resize E rgb (224, 224) = Raise cause) \/
        (exists resized, scaled_array E resized = Raise cause))).
Proof.
  unfold preprocess_image, preprocess_steps, IMAGE_SIZE. split.
  - intros img_array H.
    destruct (b64decode E image_base64) as [image_data | e0] eqn:H1;
      cbn [bind] in H; [| discriminate].
    destruct (Image_open E image_data) as [image | e0] eqn:H2;
      cbn [bind] in H; [| discriminate].
    destruct (mode_RGB E image) eqn:Hmode.
    + cbn [bind] in H.
      destruct (resize E image (224, 224)) as [resized | e0] eqn:H4;
        cbn [bind] in H; [| discriminate].
      destruct (scaled_array E resized) as [arr | e0] eqn:H5; [| discriminate].
      injection H as <-. exists image_data, image, image, resized.
      rewrite Hmode. auto.
    + destruct (convert_RGB E image) as [rgb | e0] eqn:H3;
        cbn [bind] in H; [| discriminate].
      destruct (resize E rgb (224, 224)) as [resized | e0] eqn:H4;
        cbn [bind] in H; [| discriminate].
      destruct (scaled_array E resized) as [arr | e0] eqn:H5; [| discriminate].
      injection H as <-. exists image_data, image, rgb, resized.
      rewrite Hmode. auto.
  - intros e H.
    destruct (b64decode E image_base64) as [image_data | e0] eqn:H1; cbn [bind] in H.
    2: { injection H as <-. exists e0. auto. }
    destruct (Image_open E image_data) as [image | e0] eqn:H2; cbn [bind] in H.
    2: { injection H as <-. exists e0. eauto 6. }
    destruct (mode_RGB E image) eqn:Hmode.
    + cbn [bind] in H.
      destruct (resize E image (224, 224)) as [resized | e0] eqn:H4; cbn [bind] in H.
      2: { injection H as <-. exists e0. eauto 8. }
      destruct (scaled_array E resized) as [arr | e0] eqn:H5; [discriminate |].
      injection H as <-. exists e0. eauto 10.
    + destruct (convert_RGB E image) as [rgb | e0] eqn:H3; cbn [bind] in H.
      2: { injection H as <-. exists e0. eauto 8. }
      destruct (resize E rgb (224, 224)) as [resized | e0] eqn:H4; cbn [bind] in H.
      2: { injection H as <-. exists e0. eauto 8. }
      destruct (scaled_array E resized) as [arr | e0] eqn:H5; [discriminate |].
      injection H as <-. exists e0. eauto 10.
Qed.

(** A CMYK image is converted before it is resized; bytes that are no
    image are turned down with the reader's message. *)
Lemma preprocess_image_contract_witness :
  (exists image_data image rgb resized,
     b64decode (Examples.cnn_disk None (fun _ => false) Examples.uniform) "CMYK"
     = Ok image_data /\
     Image_open (Examples.cnn_disk None (fun _ => false) Examples.uniform) image_data
     = Ok image /\
     (if mode_RGB (Examples.cnn_disk None (fun _ => false) Examples.uniform) image
      then rgb = image
      else convert_RGB (Examples.cnn_disk None (fun _ => false) Examples.uniform) image
           = Ok rgb) /\
     resize (Examples.cnn_disk None (fun _ => false) Examples.uniform) rgb (224, 224)
     = Ok resized /\
     scaled_array (Examples.cnn_disk None (fun _ => false) Examples.uniform) resized
     = Ok "RGB(CMYK)"%string) /\
  (exists cause,
     preprocess_image (Examples.cnn_disk None (fun _ => false) Examples.uniform) "GIF?"
     = Raise (ValueError ("Failed to preprocess image: " ++ str cause)%string)).
Proof.
  split.
  - apply (proj1 (preprocess_image_contract
                    (Examples.cnn_disk None (fun _ => false) Examples.uniform)
                    "CMYK")).
    reflexivity.
  - destruct (proj2 (preprocess_image_contract
                       (Examples.cnn_disk None (fun _ => false) Examples.uniform)
                       "GIF?")
                (ValueError "Failed to preprocess image: cannot identify image file")
                eq_refl) as (cause & Hcause & _).
    exists cause. rewrite <- Hcause. reflexivity.
Defined.

(* ----------------------------------------------------------------- *)
(** *** What every result of the ranking satisfies *)

(** The ranking read backwards: a result comes from a first score
    vector, its [top_5] is made of the first five indices of the
    descending order, all of them within the vector and the class
    table, and [class] and [confidence] belong to the first of them. *)
Lemma rank_inversion (E : Env) (predictions : list (list float)) (r : Prediction) :
  rank E predictions = Ok r ->
  exists v rest k tail,
    predictions = v :: rest /\
    firstn 5 (descending E v) = k :: tail /\
    top_5 r = map (ranked v) (k :: tail) /\
    Forall (fun i => i < NUM_CLASSES /\ i < length v) (k :: tail) /\
    class r = nth k FOOD_CLASSES EmptyString /\
    confidence r = at_ v k.
Proof.
  unfold rank. intros H.
  destruct predictions as [| v rest]; [discriminate |].
  change (getitem (v :: rest) 0) with (Ok v) in H. cbn [bind] in H.
  rewrite rev_lastn in H. fold (descending E v) in H.
  destruct (firstn 5 (descending E v)) as [| k tail] eqn:Hidx; [discriminate |].
  change (getitem (k :: tail) 0) with (Ok k) in H. cbn [bind] in H.
  destruct (getitem FOOD_CLASSES k) as [top_class |] eqn:Hclass;
    cbn [bind] in H; [| discriminate].
  destruct (getitem v k) as [top_confidence |] eqn:Hconf;
    cbn [bind] in H; [| discriminate].
  match type of H with
  | bind (for_each ?f ?l) _ = _ =>
      destruct (for_each f l) as [entries |] eqn:Hloop;
        cbn [bind] in H; [| discriminate];
        apply (for_each_ok_map f (ranked v)
                 (fun i => i < NUM_CLASSES /\ i < length v)) in Hloop
  end.
  - destruct Hloop as [-> Hrange]. injection H as <-. cbn [top_5 class confidence].
    exists v, rest, k, tail.
    apply (getitem_ok _ _ _ EmptyString) in Hclass.
    apply (getitem_ok _ _ _ S754_nan) in Hconf.
    destruct Hclass as [_ <-]. destruct Hconf as [_ <-]. auto 10.
  - intros idx y Hy.
    destruct (getitem FOOD_CLASSES idx) as [l |] eqn:Hl; cbn [bind] in Hy;
      [| discriminate].
    destruct (getitem v idx) as [sc |] eqn:Hs; cbn [bind] in Hy; [| discriminate].
    injection Hy as <-.
    apply (getitem_ok _ _ _ EmptyString) in Hl.
    apply (getitem_ok _ _ _ S754_nan) in Hs.
    destruct Hl as [Hl <-]. destruct Hs as [Hs <-].
    rewrite FOOD_CLASSES_length in Hl. auto.
Qed.

Lemma predict_inversion (E : Env) (_model : option (Model E))
    (image_base64 : string) (r : Prediction) :
  snd (predict E _model image_base64) = Ok r ->
  exists predictions,
    model_output E _model image_base64 = Ok predictions /\
    rank E predictions = Ok r.
Proof.
  rewrite predict_rank.
  destruct (model_output E _model image_base64) as [predictions | e];
    cbn [bind]; [| discriminate].
  intros H. exists predictions. auto.
Qed.

(** The first entry of [top_5] is the prediction itself: its label is
    [class] and its score is [confidence]. *)
Theorem top_5_starts_with_the_prediction
    (E : Env) (_model : option (Model E)) (image_base64 : string) (r : Prediction) :
  snd (predict E _model image_base64) = Ok r ->
  nth_error (top_5 r) 0 = Some {| label := class r; score := confidence r |}.
Proof.
  intros H. destruct (predict_inversion E _model image_base64 r H)
    as (predictions & _ & Hrank).
  destruct (rank_inversion E predictions r Hrank)
    as (v & rest & k & tail & _ & _ & -> & _ & -> & ->).
  reflexivity.
Qed.

Lemma top_5_starts_with_the_prediction_witness :
  nth_error
    (top_5 {| class := "chicken_curry";
              display := "chicken curry";
              confidence := Examples.f32 3 (-2);
              top_5 := map (ranked (Examples.peaked 18)) [18; 100; 99; 98; 97] |}) 0
  = Some {| label := "chicken_curry"; score := Examples.f32 3 (-2) |}.
Proof.
  apply (top_5_starts_with_the_prediction
           (Examples.cnn_env (Examples.peaked 18)) None "aGk="
           {| class := "chicken_curry";
              display := "chicken curry";
              confidence := Examples.f32 3 (-2);
              top_5 := map (ranked (Examples.peaked 18)) [18; 100; 99; 98; 97] |}).
  vm_compute. reflexivity.
Defined.

Lemma distinct_NoDup (l : list string) : Examples.distinct l = true -> NoDup l.
Proof.
  induction l as [| x l IH]; simpl; intros H; constructor.
  - apply andb_true_iff in H. destruct H as [H _].
    apply negb_true_iff in H. intros Hin.
    assert (existsb (String.eqb x) l = true); [| congruence].
    apply existsb_exists. exists x. split; [exact Hin | apply String.eqb_refl].
  - apply IH. apply andb_true_iff in H. apply H.
Qed.

Lemma FOOD_CLASSES_NoDup : NoDup FOOD_CLASSES.
Proof. apply distinct_NoDup. vm_compute. reflexivity. Qed.

Lemma descending_NoDup (E : Env) (v : list float) :
  argsort_spec (argsort E) -> NoDup (descending E v).
Proof.
  intros Hspec.
  eapply Permutation_NoDup; [apply Permutation_sym, (descending_perm E Hspec) |].
  apply seq_NoDup.
Qed.

(** The labels of [top_5] are names of the class table and no two of
    them are the same. *)
Theorem top_5_labels_are_distinct_classes
    (E : Env) (_model : option (Model E)) (image_base64 : string) (r : Prediction) :
  argsort_spec (argsort E) ->
  snd (predict E _model image_base64) = Ok r ->
  NoDup (map label (top_5 r)) /\
  Forall (fun l => In l FOOD_CLASSES) (map label (top_5 r)).
Proof.
  intros Hspec H. destruct (predict_inversion E _model image_base64 r H)
    as (predictions & _ & Hrank).
  destruct (rank_inversion E predictions r Hrank)
    as (v & rest & k & tail & _ & Hidx & -> & Hrange & _ & _).
  rewrite map_map. cbn [label ranked].
  rewrite Forall_forall in Hrange. split.
  - apply NoDup_map_NoDup_ForallPairs.
    + intros i j Hi Hj Heq.
      apply (proj1 (NoDup_nth FOOD_CLASSES EmptyString) FOOD_CLASSES_NoDup);
        try assumption; rewrite FOOD_CLASSES_length; apply Hrange; assumption.
    + rewrite <- Hidx. apply NoDup_app_remove_r with (l' := skipn 5 (descending E v)).
      rewrite firstn_skipn. apply descending_NoDup, Hspec.
  - apply Forall_forall. intros l Hl. apply in_map_iff in Hl.
    destruct Hl as (i & <- & Hi). apply nth_In.
    rewrite FOOD_CLASSES_length. apply Hrange, Hi.
Qed.

Lemma top_5_labels_are_distinct_classes_witness :
  NoDup ["bibimbap"; "beef_carpaccio"; "waffles"; "tuna_tartare"; "tiramisu"]%string /\
  Forall (fun l => In l FOOD_CLASSES)
    ["bibimbap"; "beef_carpaccio"; "waffles"; "tuna_tartare"; "tiramisu"]%string.
Proof.
  apply (top_5_labels_are_distinct_classes
           (Examples.cnn_env Examples.twin) None "aGk="
           {| class := "bibimbap";
              display := "bibimbap";
              confidence := Examples.f32 3 (-2);
              top_5 := map (ranked Examples.twin) [7; 3; 100; 99; 98] |}).
  - apply argsort_stable_spec.
  - vm_compute. reflexivity.
Defined.

(** [top_5] leaves out no class that scores higher than one it holds:
    it is made of indices without repetition, and the score at any
    index left out is greater than none of theirs. *)
Theorem top_5_leaves_out_no_higher_score
    (E : Env) (_model : option (Model E)) (image_base64 : string)
    (v : list float) (rest : list (list float)) (r : Prediction) :
  argsort_spec (argsort E) ->
  model_output E _model image_base64 = Ok (v :: rest) ->
  snd (predict E _model image_base64) = Ok r ->
  exists indices,
    top_5 r = map (ranked v) indices /\
    NoDup indices /\
    forall i, i < length v -> ~ In i indices ->
      forall j, In j indices -> SFltb (at_ v j) (at_ v i) = false.
Proof.
  intros Hspec Hout H. rewrite predict_rank, Hout in H. cbn [bind] in H.
  destruct (rank_inversion E (v :: rest) r H)
    as (v' & rest' & k & tail & Heq & Hidx & Htop & _ & _ & _).
  injection Heq as <- <-.
  exists (k :: tail). split; [exact Htop |]. rewrite <- Hidx. split.
  - apply NoDup_app_remove_r with (l' := skipn 5 (descending E v)).
    rewrite firstn_skipn. apply descending_NoDup, Hspec.
  - intros i Hi Hout_of_top j Hj.
    pose proof (descending_sorted E Hspec v) as Hs.
    rewrite <- (firstn_skipn 5 (descending E v)) in Hs.
    apply StronglySorted_app in Hs. destruct Hs as (_ & _ & Hcross).
    apply less_false_SFltb, Hcross; [exact Hj |].
    apply (descending_in_range E Hspec) in Hi.
    rewrite <- (firstn_skipn 5 (descending E v)) in Hi.
    apply in_app_or in Hi. destruct Hi as [Hi | Hi]; [contradiction | exact Hi].
Qed.

Lemma top_5_leaves_out_no_higher_score_witness :
  exists indices,
    map (ranked Examples.twin) [7; 3; 100; 99; 98] = map (ranked Examples.twin) indices /\
    NoDup indices /\
    forall i, i < length Examples.twin -> ~ In i indices ->
      forall j, In j indices ->
        SFltb (at_ Examples.twin j) (at_ Examples.twin i) = false.
Proof.
  apply (top_5_leaves_out_no_higher_score
           (Examples.cnn_env Examples.twin) None "aGk=" Examples.twin []
           {| class := "bibimbap";
              display := "bibimbap";
              confidence := Examples.f32 3 (-2);
              top_5 := map (ranked Examples.twin) [7; 3; 100; 99; 98] |}).
  - apply argsort_stable_spec.
  - vm_compute. reflexivity.
  - vm_compute. reflexivity.
Defined.

(* ----------------------------------------------------------------- *)
(** *** Vectors of another length *)

(** A score vector shorter than five gives a [top_5] with one entry per
    score; an empty vector and an empty batch raise IndexError (the
    subscript that fails is one of a NumPy array, whose message text is
    left open here). *)
Theorem top_5_of_a_short_vector
    (E : Env) (_model : option (Model E)) (image_base64 : string) :
  argsort_spec (argsort E) ->
  (forall v rest,
     model_output E _model image_base64 = Ok (v :: rest) ->
     0 < length v <= NUM_CLASSES ->
     exists r, snd (predict E _model image_base64) = Ok r /\
               length (top_5 r) = Nat.min 5 (length v)) /\
  (forall rest,
     model_output E _model image_base64 = Ok ([] :: rest) ->
     exists msg,
       snd (predict E _model image_base64) = Raise (IndexError msg)) /\
  (model_output E _model image_base64 = Ok [] ->
   exists msg,
     snd (predict E _model image_base64) = Raise (IndexError msg)).
Proof.
  intros Hspec. split; [| split].
  - intros v rest Hout Hlen.
    destruct (rank_value E Hspec v rest Hlen) as (k & tail & _ & Hr).
    rewrite predict_rank, Hout. cbn [bind]. rewrite Hr.
    eexists. split; [reflexivity |]. cbn [top_5].
    rewrite length_map, length_firstn, (descending_length E Hspec). reflexivity.
  - intros rest Hout. rewrite predict_rank, Hout. cbn [bind]. unfold rank.
    change (getitem ([] :: rest) 0) with (@Ok (list float) []). cbn [bind].
    pose proof (argsort_perm Hspec []) as Hperm. simpl in Hperm.
    apply Permutation_sym, Permutation_nil in Hperm. rewrite Hperm.
    eexists. reflexivity.
  - intros Hout. rewrite predict_rank, Hout. eexists. reflexivity.
Qed.

Lemma top_5_of_a_short_vector_witness :
  exists r,
    snd (predict (Examples.cnn_env Examples.three_scores) None "aGk=") = Ok r /\
    length (top_5 r) = 3.
Proof.
  destruct (top_5_of_a_short_vector (Examples.cnn_env Examples.three_scores)
              None "aGk=" argsort_stable_spec) as (Hshort & _ & _).
  apply (Hshort Examples.three_scores []).
  - vm_compute. reflexivity.
  - vm_compute. lia.
Defined.

(** When the model scores more classes than the table names and the
    unique maximum falls past the end of the table, [predict] raises
    IndexError: nothing is clamped. *)
Theorem maximum_past_the_class_table
    (E : Env) (_model : option (Model E)) (image_base64 : string)
    (v : list float) (rest : list (list float)) (m : nat) :
  argsort_spec (argsort E) ->
  model_output E _model image_base64 = Ok (v :: rest) ->
  is_unique_maximum v m ->
  NUM_CLASSES <= m ->
  snd (predict E _model image_base64) = Raise (IndexError "list index out of range").
Proof.
  intros Hspec Hout [Hm Hmax] Hpast.
  rewrite predict_rank, Hout. cbn [bind]. unfold rank.
  change (getitem (v :: rest) 0) with (Ok v). cbn [bind].
  rewrite rev_lastn. fold (descending E v).
  destruct (descending E v) as [| k tail] eqn:HD.
  { pose proof (descending_length E Hspec v) as HL. rewrite HD in HL.
    simpl in HL. lia. }
  assert (Hk : k = m).
  { destruct (Nat.eq_dec k m) as [| Hne]; [assumption | exfalso].
    assert (Hkr : k < length v).
    { apply (descending_in_range E Hspec). rewrite HD. left. reflexivity. }
    pose proof (head_not_less E Hspec v k tail HD m Hm) as Hnl.
    rewrite (SFltb_less _ _ (Hmax k Hkr Hne)) in Hnl. discriminate. }
  subst k. change (getitem (firstn 5 (m :: tail)) 0) with (Ok m). cbn [bind].
  unfold getitem at 1.
  destruct (nth_error FOOD_CLASSES m) eqn:Hname; [| reflexivity].
  assert (m < length FOOD_CLASSES) by (apply nth_error_Some; congruence).
  rewrite FOOD_CLASSES_length in *. lia.
Qed.

Lemma maximum_past_the_class_table_witness :
  snd (predict (Examples.cnn_env Examples.oversized) None "aGk=")
  = Raise (IndexError "list index out of range").
Proof.
  apply (maximum_past_the_class_table (Examples.cnn_env Examples.oversized)
           None "aGk=" Examples.oversized [] 102).
  - apply argsort_stable_spec.
  - vm_compute. reflexivity.
  - apply is_unique_maximumb_spec. vm_compute. reflexivity.
  - vm_compute. lia.
Defined.

(* ----------------------------------------------------------------- *)
(** *** Requests *)

(** When the model cannot be loaded, [predict] raises [load_model]'s
    exception whatever the image, which it does not decode, and the
    cache stays empty. *)
Theorem predict_fails_as_load_model
    (E : Env) (_model : option (Model E)) (e : exn) :
  snd (load_model E _model) = Raise e ->
  forall image_base64, predict E _model image_base64 = (None, Raise e).
Proof.
  intros Hload image_base64. unfold predict.
  destruct (load_model E _model) as [cache loaded] eqn:H. simpl in Hload. subst loaded.
  destruct (proj1 (load_model_outcomes E _model cache) e H) as [_ ->]. reflexivity.
Qed.

Lemma predict_fails_as_load_model_witness :
  predict (Examples.cnn_disk None (fun _ => false) Examples.uniform) None "a"
  = (None, Raise (FileNotFoundError "CNN model not found. Expected at: None")).
Proof.
  apply (predict_fails_as_load_model
           (Examples.cnn_disk None (fun _ => false) Examples.uniform) None).
  reflexivity.
Defined.

(** [POST /predict] answers 200 with a result, or 400 or 500 with an
    error object.  A 400 leaves the cache as it was: nothing is loaded
    for a request without data or image.  Whatever the request, the
    cache is left as it was or goes from empty to a loaded model; a
    loaded model is never replaced or dropped. *)
Theorem predict_endpoint_answers
    (E : Env) (_model : option (Model E))
    (request_json : result (option (list (string * string)))) :
  ((snd (snd (predict_endpoint E _model request_json)) = 200 /\
    exists r, fst (snd (predict_endpoint E _model request_json)) = JsonResult r) \/
   (snd (snd (predict_endpoint E _model request_json)) = 400 /\
    fst (predict_endpoint E _model request_json) = _model /\
    exists msg, fst (snd (predict_endpoint E _model request_json)) = JsonError msg) \/
   (snd (snd (predict_endpoint E _model request_json)) = 500 /\
    exists msg, fst (snd (predict_endpoint E _model request_json)) = JsonError msg)) /\
  (fst (predict_endpoint E _model request_json) = _model \/
   (_model = None /\ exists m, fst (predict_endpoint E _model request_json) = Some m)).
Proof.
  unfold predict_endpoint.
  destruct request_json as [[[| member data] |] | e]; cbn [fst snd]; eauto 8.
  destruct (get (member :: data) "image") as [[| c image_base64] |];
    cbn [fst snd]; eauto 8.
  unfold predict.
  destruct (load_model E _model) as [cache loaded] eqn:Hload. cbn [bind].
  assert (Hcache : cache = _model \/ (_model = None /\ exists m, cache = Some m)).
  { destruct loaded as [m | e].
    - destruct (proj2 (load_model_outcomes E _model cache) m Hload) as [-> _].
      destruct _model as [m0 |]; [| eauto].
      unfold load_model in Hload. injection Hload as <- _. auto.
    - destruct (proj1 (load_model_outcomes E _model cache) e Hload) as [-> ->]. auto. }
  destruct (model <- loaded;;
            img_array <- preprocess_image E (String c image_base64);;
            predictions <- model img_array;; rank E predictions);
    cbn [fst snd]; eauto 8.
Qed.

(** After a prediction, [GET /health] reports [model_loaded] exactly
    when the model was in the cache or could be loaded. *)
Theorem health_after_predict
    (E : Env) (_model : option (Model E)) (image_base64 : string) :
  model_loaded (health E (fst (predict E _model image_base64))) = true <->
  exists m, snd (load_model E _model) = Ok m.
Proof.
  unfold predict, health. cbn [model_loaded].
  destruct (load_model E _model) as [cache [m | e]] eqn:Hload; cbn [fst snd].
  - destruct (proj2 (load_model_outcomes E _model cache) m Hload) as [-> _].
    split; eauto.
  - destruct (proj1 (load_model_outcomes E _model cache) e Hload) as [_ ->].
    split; [discriminate | intros [m Hm]; discriminate].
Qed.

Lemma health_after_predict_witness :
  model_loaded (health (Examples.cnn_env Examples.uniform)
                  (fst (predict (Examples.cnn_env Examples.uniform) None "a")))
  = true.
Proof.
  apply (proj2 (health_after_predict (Examples.cnn_env Examples.uniform) None "a")).
  eexists. reflexivity.
Defined.

(* ----------------------------------------------------------------- *)
(** *** The command line *)

(** A direct call prints what the endpoint would answer for the same
    non-empty image in a fresh process: the result on the standard
    output with exit status 0 where the endpoint answers 200, the error
    object on the standard error with exit status 1 where it answers
    500. *)
Theorem main_agrees_with_predict_endpoint
    (E : Env) (flask_installed : bool) (script_dir prog arg : string)
    (rest : list string) :
  arg <> "--server"%string -> arg <> EmptyString ->
  (exists r,
     snd (predict_endpoint E None (Ok (Some [("image"%string, arg)])))
     = (JsonResult r, 200) /\
     main E flask_installed script_dir (prog :: arg :: rest)
     = Exit E [Dumps (JsonResult r)] [] 0) \/
  (exists msg,
     snd (predict_endpoint E None (Ok (Some [("image"%string, arg)])))
     = (JsonError msg, 500) /\
     main E flask_installed script_dir (prog :: arg :: rest)
     = Exit E [] [Dumps (JsonError msg)] 1).
Proof.
  intros Hserver Hempty. unfold main, predict_endpoint.
  apply String.eqb_neq in Hserver. rewrite Hserver.
  cbn [get]. rewrite String.eqb_refl.
  destruct arg as [| c arg]; [congruence |].
  destruct (predict E None (String c arg)) as [cache [r | e]]; cbn [snd]; eauto.
Qed.

Lemma main_agrees_with_predict_endpoint_witness :
  exists msg,
    snd (predict_endpoint (Examples.cnn_env Examples.uniform) None
           (Ok (Some [("image"%string, "a"%string)])))
    = (JsonError msg, 500) /\
    main (Examples.cnn_env Examples.uniform) true "/srv" ["cnn_predict.py"; "a"]%string
    = Exit (Examples.cnn_env Examples.uniform) [] [Dumps (JsonError msg)] 1.
Proof.
  destruct (main_agrees_with_predict_endpoint (Examples.cnn_env Examples.uniform)
              true "/srv" "cnn_predict.py" "a" [])
    as [(r & Hr & _) | H].
  - discriminate.
  - discriminate.
  - vm_compute in Hr. discriminate Hr.
  - exact H.
Defined.

End CnnFacts.

(* ================================================================= *)
(** ** lstm_predict.py *)

Module LstmFacts.

Import Np NpFacts PyFacts LstmPredict.

Section Service.

Variable PROJECT_ROOT : string.
Variable files : Files.
Variables prec emax : Z.

(** [predict] is its second half applied to what its first half
    produced, in the world the first half left. *)
Lemma predict_normalise (sequence : list (list entry)) (w : World) :
  predict PROJECT_ROOT files prec emax sequence w
  = match model_output PROJECT_ROOT files sequence w with
    | (w', Ok (c, v, sp, mc)) => (w', normalise prec emax c v sp mc)
    | (w', Raise e) => (w', Raise e)
    end.
Proof.
  unfold predict, model_output, normalise, seq_, lift, ret, run.
  destruct (load_model PROJECT_ROOT files w) as [w1 [[[model sp] mc] | e]];
    [| reflexivity].
  destruct (Np.array [sequence]) as [batch | e]; [| reflexivity].
  destruct (model batch) as [predictions | e]; [| reflexivity].
  destruct (p0 <- getitem predictions 0;; p00 <- getitem p0 0;; getitem p00 0)
    as [c | e]; [| reflexivity].
  destruct (p1 <- getitem predictions 1;; getitem p1 0) as [v | e]; [| reflexivity].
  destruct (sp0 <- subscriptable sp;; getitem (scaler_min sp0) 0)
    as [cal_min | e]; [| reflexivity].
  destruct (sp0 <- subscriptable sp;; getitem (scaler_max sp0) 0)
    as [cal_max | e]; [| reflexivity].
  cbn [bind].
  destruct (argmax v) as [k | e]; [| reflexivity]. cbn [bind].
  destruct (mc0 <- subscriptable mc;; getitem (food_categories mc0) k)
    as [l | e]; [| reflexivity]. cbn [bind].
  destruct (getitem v k); reflexivity.
Qed.

(** The value of the second half when the scaler arrays have an entry
    at index 0: only the lookup of the category name can raise. *)
Lemma normalise_value (c : float) (v : list float)
    (sp : ScalerParams) (mc : ModelConfig)
    (cal_min cal_max : float) (mins maxs : list float) (k : nat) :
  scaler_min sp = cal_min :: mins ->
  scaler_max sp = cal_max :: maxs ->
  argmax v = Ok k -> k < length v ->
  normalise prec emax c v (Some sp) (Some mc)
  = match nth_error (food_categories mc) k with
    | Some _ => Ok {| calories := denormalize prec emax c cal_min cal_max;
                      category := k;
                      categoryConfidence := at_ v k |}
    | None => Raise (IndexError "list index out of range")
    end.
Proof.
  intros Hmin Hmax Hk Hlt. unfold normalise. cbn [subscriptable bind].
  rewrite Hmin, Hmax. cbn [getitem nth_error bind]. rewrite Hk. cbn [bind].
  unfold getitem at 1.
  destruct (nth_error (food_categories mc) k); [| reflexivity]. cbn [bind].
  rewrite (getitem_nth v k S754_nan Hlt). reflexivity.
Qed.

(** The value of [predict] once the model has answered and the
    scaler arrays have an entry at index 0. *)
Lemma predict_value (sequence : list (list entry)) (w w' : World)
    (c : float) (v : list float) (sp : ScalerParams) (mc : ModelConfig)
    (cal_min cal_max : float) (mins maxs : list float) :
  model_output PROJECT_ROOT files sequence w = (w', Ok (c, v, Some sp, Some mc)) ->
  scaler_min sp = cal_min :: mins ->
  scaler_max sp = cal_max :: maxs ->
  v <> [] ->
  exists k,
    argmax v = Ok k /\ first_maximum v k /\
    predict PROJECT_ROOT files prec emax sequence w
    = (w', match nth_error (food_categories mc) k with
           | Some _ => Ok {| calories := denormalize prec emax c cal_min cal_max;
                             category := k;
                             categoryConfidence := at_ v k |}
           | None => Raise (IndexError "list index out of range")
           end).
Proof.
  intros Hout Hmin Hmax Hv.
  destruct (argmax_first v Hv) as (k & Hk & Hfirst).
  exists k. split; [exact Hk |]. split; [exact Hfirst |].
  rewrite predict_normalise, Hout.
  rewrite (normalise_value c v sp mc cal_min cal_max mins maxs k Hmin Hmax Hk).
  - reflexivity.
  - apply Hfirst.
Qed.

End Service.

(** C5.  When the model has answered with the category scores [v],
    [predict] returns the first maximum of [v] as [category], a natural
    number and not a name, and the score at that index as
    [categoryConfidence]; whenever [v] has a maximum in IEEE's order its
    lowest index is the one returned. *)
Theorem category_is_first_argmax
    (PROJECT_ROOT : string) (files : Files) (prec emax : Z)
    (sequence : list (list entry)) (w w' : World)
    (c : float) (v : list float) (sp : ScalerParams) (mc : ModelConfig)
    (cal_min cal_max : float) (mins maxs : list float) :
  model_output PROJECT_ROOT files sequence w = (w', Ok (c, v, Some sp, Some mc)) ->
  scaler_min sp = cal_min :: mins ->
  scaler_max sp = cal_max :: maxs ->
  v <> [] ->
  (forall k, first_maximum v k -> k < length (food_categories mc)) ->
  exists r,
    predict PROJECT_ROOT files prec emax sequence w = (w', Ok r) /\
    first_maximum v (category r) /\
    categoryConfidence r = at_ v (category r) /\
    (forall i, is_maximum v i -> is_maximum v (category r) /\ category r <= i).
Proof.
  intros Hout Hmin Hmax Hv Hnames.
  destruct (predict_value PROJECT_ROOT files prec emax sequence w w' c v sp mc
              cal_min cal_max mins maxs Hout Hmin Hmax Hv)
    as (k & Hk & Hfirst & Hpredict).
  rewrite Hpredict.
  destruct (nth_error (food_categories mc) k) eqn:Hname.
  - eexists. split; [reflexivity |]. cbn [category categoryConfidence].
    split; [exact Hfirst |]. split; [reflexivity |].
    intros i Hi. apply first_maximum_lowest; assumption.
  - exfalso. apply nth_error_None in Hname. specialize (Hnames k Hfirst). lia.
Qed.

Lemma category_is_first_argmax_witness :
  exists r,
    predict "/app" (Examples.lstm_files
                      (Examples.constant_model (Examples.f32 1 (-1))
                                               Examples.tied_categories))
            53 1024 (Examples.numbers (Examples.zeros 14)) fresh
    = ({| globals := {| _model := Some (Examples.constant_model (Examples.f32 1 (-1))
                                                                Examples.tied_categories);
                        _scaler_params := Some Examples.scaler;
                        _model_config := Some Examples.config |};
          invoked := [[Examples.zeros 14]] |}, Ok r) /\
    first_maximum Examples.tied_categories (category r) /\
    categoryConfidence r = at_ Examples.tied_categories (category r) /\
    (forall i, is_maximum Examples.tied_categories i ->
               is_maximum Examples.tied_categories (category r) /\ category r <= i).
Proof.
  apply (category_is_first_argmax "/app"
           (Examples.lstm_files (Examples.constant_model (Examples.f32 1 (-1))
                                                         Examples.tied_categories))
           53 1024 (Examples.numbers (Examples.zeros 14)) fresh _
           (Examples.f32 1 (-1)) Examples.tied_categories
           Examples.scaler Examples.config
           (Examples.f64 0 0) (Examples.f64 1000 0)
           [Examples.f64 0 0] [Examples.f64 24 0]).
  - vm_compute. reflexivity.
  - reflexivity.
  - reflexivity.
  - discriminate.
  - intros k [Hk _]. simpl in *. exact Hk.
Defined.

(** The tie in [tied_categories] (7/8 at indices 1 and 2) goes to
    index 1. *)
Example tied_categories_pick_lower :
  snd (predict "/app" (Examples.lstm_files
                         (Examples.constant_model (Examples.f32 1 (-1))
                                                  Examples.tied_categories))
               53 1024 (Examples.numbers (Examples.zeros 14)) fresh)
  = Ok {| calories := Examples.f64 500 0;
          category := 1;
          categoryConfidence := Examples.f32 7 (-3) |}.
Proof. vm_compute. reflexivity. Qed.

(** C10.  [predict] subscripts [food_categories] at the argmax index
    [k] although it returns the index only: with [k] at or past the end
    of the list it raises IndexError; with [k] inside the list it
    returns, and the result is made of the scores and the scaler alone,
    so it is the same under any other list that has an entry at [k]. *)
Theorem category_lookup_range
    (PROJECT_ROOT : string) (files : Files) (prec emax : Z)
    (sequence : list (list entry)) (w w' : World)
    (c : float) (v : list float) (sp : ScalerParams) (mc : ModelConfig)
    (cal_min cal_max : float) (mins maxs : list float) :
  model_output PROJECT_ROOT files sequence w = (w', Ok (c, v, Some sp, Some mc)) ->
  scaler_min sp = cal_min :: mins ->
  scaler_max sp = cal_max :: maxs ->
  v <> [] ->
  exists k,
    argmax v = Ok k /\
    (length (food_categories mc) <= k ->
     predict PROJECT_ROOT files prec emax sequence w
     = (w', Raise (IndexError "list index out of range"))) /\
    (k < length (food_categories mc) ->
     predict PROJECT_ROOT files prec emax sequence w
     = (w', Ok {| calories := denormalize prec emax c cal_min cal_max;
                  category := k;
                  categoryConfidence := at_ v k |})) /\
    (forall mc',
       k < length (food_categories mc) ->
       k < length (food_categories mc') ->
       normalise prec emax c v (Some sp) (Some mc')
       = normalise prec emax c v (Some sp) (Some mc)).
Proof.
  intros Hout Hmin Hmax Hv.
  destruct (predict_value PROJECT_ROOT files prec emax sequence w w' c v sp mc
              cal_min cal_max mins maxs Hout Hmin Hmax Hv)
    as (k & Hk & Hfirst & Hpredict).
  assert (Hlt : k < length v) by apply Hfirst.
  pose proof (fun mc0 => normalise_value prec emax c v sp mc0 cal_min cal_max
                           mins maxs k Hmin Hmax Hk Hlt) as Hvalue.
  exists k. split; [exact Hk |]. rewrite Hpredict.
  split; [| split].
  - intros Hout_of_range. apply nth_error_None in Hout_of_range.
    rewrite Hout_of_range. reflexivity.
  - intros Hin. apply nth_error_Some in Hin.
    destruct (nth_error (food_categories mc) k); [reflexivity | congruence].
  - intros mc' Hin Hin'. rewrite (Hvalue mc'), (Hvalue mc).
    apply nth_error_Some in Hin, Hin'.
    destruct (nth_error (food_categories mc) k); [| congruence].
    destruct (nth_error (food_categories mc') k); [reflexivity | congruence].
Qed.

(** Five scores against four names: the argmax is 4 and the lookup
    raises. *)
Lemma category_lookup_range_witness :
  argmax Examples.five_scores = Ok 4 /\
  length (food_categories Examples.config) <= 4 /\
  snd (predict "/app"
         (Examples.lstm_files
            (Examples.constant_model (Examples.f32 1 (-1)) Examples.five_scores))
         53 1024 (Examples.numbers (Examples.zeros 14)) fresh)
  = Raise (IndexError "list index out of range").
Proof.
  destruct (category_lookup_range "/app"
              (Examples.lstm_files
                 (Examples.constant_model (Examples.f32 1 (-1)) Examples.five_scores))
              53 1024 (Examples.numbers (Examples.zeros 14)) fresh
              (fst (model_output "/app"
                      (Examples.lstm_files
                         (Examples.constant_model (Examples.f32 1 (-1))
                                                  Examples.five_scores))
                      (Examples.numbers (Examples.zeros 14)) fresh))
              (Examples.f32 1 (-1)) Examples.five_scores
              Examples.scaler Examples.config
              (Examples.f64 0 0) (Examples.f64 1000 0)
              [Examples.f64 0 0] [Examples.f64 24 0])
    as (k & Hk & Hout & _).
  - vm_compute. reflexivity.
  - reflexivity.
  - reflexivity.
  - discriminate.
  - assert (Hk4 : k = 4) by (vm_compute in Hk; congruence).
    subst k. split; [reflexivity |]. split; [simpl; lia |].
    rewrite Hout by (simpl; lia). reflexivity.
Defined.

(** *** Denormalisation *)

Lemma denormalize_flat_finite (prec emax : Z) (x c : float) :
  isfinite x = true ->
  SFsub 53 1024 c c = S754_zero false ->
  isfinite (astype prec emax c) = true ->
  astype prec emax c <> S754_zero true ->
  denormalize prec emax x c c = astype prec emax c.
Proof.
  intros Hx Hsub Hc Hnz. unfold denormalize. rewrite Hsub. simpl astype.
  destruct x as [s | s | | s m e]; try discriminate;
    destruct (astype prec emax c) as [s' | s' | | s' m' e'];
    try discriminate; simpl; try reflexivity;
    destruct s, s'; simpl; congruence.
Qed.

(** C4, as the code has it.  [calories] is
    [normalized * (max - min) + min] over entry 0 of the two scaler
    arrays, whatever follows in them; with min = 0 and max = 1000 the
    score 0.5 gives 500.0; with min = max = 200 every finite score gives
    200.0.  Both hold in binary64 and in binary32 arithmetic. *)
Theorem denormalization_at_index_0 :
  (forall (PROJECT_ROOT : string) (files : Files) (prec emax : Z)
          (sequence : list (list entry)) (w w' : World)
          (c : float) (v : list float) (sp : ScalerParams) (mc : ModelConfig)
          (cal_min cal_max : float) (mins maxs : list float),
     model_output PROJECT_ROOT files sequence w = (w', Ok (c, v, Some sp, Some mc)) ->
     scaler_min sp = cal_min :: mins ->
     scaler_max sp = cal_max :: maxs ->
     v <> [] ->
     (forall k, first_maximum v k -> k < length (food_categories mc)) ->
     exists r,
       predict PROJECT_ROOT files prec emax sequence w = (w', Ok r) /\
       calories r
       = SFadd prec emax
           (SFmul prec emax c (astype prec emax (SFsub 53 1024 cal_max cal_min)))
           (astype prec emax cal_min)) /\
  denormalize 53 1024 (Examples.f32 1 (-1)) (Examples.f64 0 0) (Examples.f64 1000 0)
  = Examples.f64 500 0 /\
  denormalize 24 128 (Examples.f32 1 (-1)) (Examples.f64 0 0) (Examples.f64 1000 0)
  = Examples.f32 500 0 /\
  (forall x, isfinite x = true ->
     denormalize 53 1024 x (Examples.f64 200 0) (Examples.f64 200 0)
     = Examples.f64 200 0 /\
     denormalize 24 128 x (Examples.f64 200 0) (Examples.f64 200 0)
     = Examples.f32 200 0).
Proof.
  split; [| split; [| split]].
  - intros PROJECT_ROOT files prec emax sequence w w' c v sp mc
           cal_min cal_max mins maxs Hout Hmin Hmax Hv Hnames.
    destruct (predict_value PROJECT_ROOT files prec emax sequence w w' c v sp mc
                cal_min cal_max mins maxs Hout Hmin Hmax Hv)
      as (k & Hk & Hfirst & Hpredict).
    rewrite Hpredict.
    destruct (nth_error (food_categories mc) k) eqn:Hname.
    + eexists. split; reflexivity.
    + exfalso. apply nth_error_None in Hname. specialize (Hnames k Hfirst). lia.
  - vm_compute. reflexivity.
  - vm_compute. reflexivity.
  - intros x Hx. split.
    + rewrite denormalize_flat_finite; try assumption;
        vm_compute; try reflexivity; discriminate.
    + rewrite denormalize_flat_finite; try assumption;
        vm_compute; try reflexivity; discriminate.
Qed.

(** The flat scaler under binary32 arithmetic, the model answering 3/4. *)
Lemma denormalization_at_index_0_witness :
  (exists r,
     snd (predict "/app"
            (Examples.flat_files
               (Examples.constant_model (Examples.f32 3 (-2))
                                        Examples.tied_categories))
            24 128 (Examples.numbers (Examples.zeros 14)) fresh)
     = Ok r /\
     calories r
     = SFadd 24 128
         (SFmul 24 128 (Examples.f32 3 (-2))
            (astype 24 128 (SFsub 53 1024 (Examples.f64 200 0) (Examples.f64 200 0))))
         (astype 24 128 (Examples.f64 200 0))) /\
  isfinite (Examples.f32 3 (-2)) = true /\
  denormalize 24 128 (Examples.f32 3 (-2)) (Examples.f64 200 0) (Examples.f64 200 0)
  = Examples.f32 200 0.
Proof.
  destruct denormalization_at_index_0 as (Hpredict & _ & _ & Hflat).
  split; [| split; [reflexivity |]].
  - destruct (Hpredict "/app"%string
             (Examples.flat_files
                (Examples.constant_model (Examples.f32 3 (-2))
                                         Examples.tied_categories))
             24%Z 128%Z (Examples.numbers (Examples.zeros 14)) fresh
             (fst (model_output "/app"
                     (Examples.flat_files
                        (Examples.constant_model (Examples.f32 3 (-2))
                                                 Examples.tied_categories))
                     (Examples.numbers (Examples.zeros 14)) fresh))
             (Examples.f32 3 (-2)) Examples.tied_categories
             Examples.flat_scaler Examples.config
             (Examples.f64 200 0) (Examples.f64 200 0) [] [])
      as (r & Hr & Hcal).
    + vm_compute. reflexivity.
    + reflexivity.
    + reflexivity.
    + discriminate.
    + intros k [Hk _]. simpl in *. exact Hk.
    + exists r. rewrite Hr. split; [reflexivity | exact Hcal].
  - apply (Hflat (Examples.f32 3 (-2))). reflexivity.
Defined.

(** C4 as stated fails on the scores that are not finite: when the
    model answers with an infinity or a NaN, the degenerate scaler
    min = max = 200 gives NaN, not 200.0 (infinity times the zero width
    is NaN, and NaN plus 200 is NaN). *)
Lemma flat_scaler_not_finite :
  denormalize 53 1024 (S754_infinity false) (Examples.f64 200 0) (Examples.f64 200 0)
  = S754_nan /\
  denormalize 24 128 (S754_infinity false) (Examples.f64 200 0) (Examples.f64 200 0)
  = S754_nan /\
  denormalize 53 1024 S754_nan (Examples.f64 200 0) (Examples.f64 200 0)
  = S754_nan /\
  S754_nan <> Examples.f64 200 0 /\
  S754_nan <> Examples.f32 200 0 /\
  snd (predict "/app"
         (Examples.flat_files
            (Examples.constant_model (S754_infinity false) Examples.tied_categories))
         53 1024 (Examples.numbers (Examples.zeros 14)) fresh)
  = Ok {| calories := S754_nan;
          category := 1;
          categoryConfidence := Examples.f32 7 (-3) |}.
Proof.
  repeat split; try (vm_compute; reflexivity); discriminate.
Qed.

(** *** The input decoder *)

Lemma rectangular_map {A B : Type} (f : A -> B) (rows : list (list A)) :
  rectangular (map (map f) rows) = rectangular rows.
Proof.
  destruct rows as [| r rows]; simpl; [reflexivity |].
  rewrite length_map. induction rows as [| r' rows IH]; simpl; [reflexivity |].
  rewrite length_map, IH. reflexivity.
Qed.

Lemma convert_row (row : list float) :
  for_each to_float32 (map Number row) = Ok (map float32 row).
Proof.
  induction row as [| x row IH]; simpl; [reflexivity |].
  rewrite IH. reflexivity.
Qed.

Lemma convert_rows (xs : list (list float)) :
  for_each (for_each to_float32) (map (map Number) xs)
  = Ok (map (map float32) xs).
Proof.
  induction xs as [| row xs IH]; simpl; [reflexivity |].
  rewrite convert_row. cbn [bind]. rewrite IH. reflexivity.
Qed.

(** A rectangular table of numbers converts, whatever its size. *)
Lemma array_numbers (xs : list (list float)) :
  rectangular xs = true ->
  Np.array [map (map Number) xs] = Ok [map (map float32) xs].
Proof.
  intros Hrect. unfold Np.array.
  simpl concat. rewrite app_nil_r, rectangular_map, Hrect.
  cbn [rectangular forallb andb for_each].
  rewrite convert_rows. reflexivity.
Qed.

Lemma to_float32_raise (x : entry) (e : exn) :
  to_float32 x = Raise e -> exists msg, e = ValueError msg.
Proof. destruct x; simpl; intros H; [discriminate |]. injection H as <-. eauto. Qed.

(** A ragged table, or one with an entry that is not a number, does
    not convert: ValueError. *)
Lemma array_rejects (sequence : list (list entry)) :
  (rectangular sequence = false \/
   exists row s, In row sequence /\ In (Text s) row) ->
  exists msg, Np.array [sequence] = Raise (ValueError msg).
Proof.
  intros H. unfold Np.array. simpl concat. rewrite app_nil_r.
  cbn [rectangular forallb andb].
  destruct (rectangular sequence) eqn:Hrect; [| eauto].
  destruct H as [H | (row & s & Hrow & Hs)]; [discriminate |].
  destruct (for_each_raises to_float32 row (Text s) _ Hs eq_refl) as [e He].
  destruct (for_each_raises (for_each to_float32) sequence row e Hrow He)
    as [e' He'].
  destruct (for_each_raise_origin _ _ _ He') as (row' & _ & Hrow').
  destruct (for_each_raise_origin _ _ _ Hrow') as (x & _ & Hx).
  destruct (to_float32_raise x e' Hx) as [msg ->].
  exists msg. cbn [for_each]. rewrite He'. reflexivity.
Qed.

Section Decoder.

Variable PROJECT_ROOT : string.
Variable files : Files.
Variables prec emax : Z.

Lemma load_model_invoked (w : World) :
  invoked (fst (load_model PROJECT_ROOT files w)) = invoked w.
Proof.
  unfold load_model, seq_, read_globals, write_globals, open_json, ret, raise.
  destruct (_model (globals w)); [reflexivity |].
  destruct (model_file files); [| reflexivity]. cbn [globals invoked].
  destruct (scaler_file files); [| reflexivity]. cbn [globals invoked].
  destruct (config_file files); reflexivity.
Qed.

Lemma predict_world (sequence : list (list entry)) (w : World) :
  fst (predict PROJECT_ROOT files prec emax sequence w)
  = fst (model_output PROJECT_ROOT files sequence w).
Proof.
  rewrite predict_normalise.
  destruct (model_output PROJECT_ROOT files sequence w)
    as [w' [[[[c v] sp] mc] | e]]; reflexivity.
Qed.

Lemma model_output_runs (sequence : list (list entry)) (w w1 : World)
    (model : Model) (sp : option ScalerParams) (mc : option ModelConfig)
    (batch : Tensor) :
  load_model PROJECT_ROOT files w = (w1, Ok (model, sp, mc)) ->
  Np.array [sequence] = Ok batch ->
  invoked (fst (model_output PROJECT_ROOT files sequence w))
  = invoked w1 ++ [batch].
Proof.
  intros Hload Harr. unfold model_output, seq_, lift, run, ret.
  rewrite Hload, Harr.
  destruct (model batch) as [predictions | e]; [| reflexivity].
  destruct (p0 <- getitem predictions 0;; p00 <- getitem p0 0;; getitem p00 0);
    [| reflexivity].
  destruct (p1 <- getitem predictions 1;; getitem p1 0); reflexivity.
Qed.

Lemma predict_array_raises (sequence : list (list entry)) (w w1 : World)
    (model : Model) (sp : option ScalerParams) (mc : option ModelConfig)
    (e : exn) :
  load_model PROJECT_ROOT files w = (w1, Ok (model, sp, mc)) ->
  Np.array [sequence] = Raise e ->
  predict PROJECT_ROOT files prec emax sequence w = (w1, Raise e).
Proof.
  intros Hload Harr. unfold predict, seq_, lift. rewrite Hload, Harr.
  reflexivity.
Qed.

End Decoder.

(** C2, as the code has it.  [predict] asks for no particular number
    of steps or features.  Once the artifacts are loaded, every
    rectangular table of numbers, whatever its size, becomes a batch of
    one float32 array of that size on which the model is run; only a
    ragged table, or one with an entry that is not a number, is turned
    down before the model is run, by the array conversion, with
    ValueError. *)
Theorem sequence_shape_not_validated
    (PROJECT_ROOT : string) (files : Files) (prec emax : Z)
    (w w1 : World) (model : Model)
    (sp : option ScalerParams) (mc : option ModelConfig) :
  load_model PROJECT_ROOT files w = (w1, Ok (model, sp, mc)) ->
  (forall xs : list (list float),
     rectangular xs = true ->
     invoked (fst (predict PROJECT_ROOT files prec emax (map (map Number) xs) w))
     = invoked w ++ [[map (map float32) xs]] /\
     shape [map (map float32) xs] = (1, length xs, length (hd [] xs))) /\
  (forall sequence : list (list entry),
     (rectangular sequence = false \/
      exists row s, In row sequence /\ In (Text s) row) ->
     exists msg,
       predict PROJECT_ROOT files prec emax sequence w = (w1, Raise (ValueError msg)) /\
       invoked w1 = invoked w).
Proof.
  intros Hload.
  assert (Hinv : invoked w1 = invoked w).
  { pose proof (load_model_invoked PROJECT_ROOT files w) as H.
    rewrite Hload in H. exact H. }
  split.
  - intros xs Hrect. split.
    + rewrite predict_world.
      rewrite (model_output_runs PROJECT_ROOT files _ w w1 model sp mc _
                 Hload (array_numbers xs Hrect)).
      rewrite Hinv. reflexivity.
    + unfold shape. simpl. rewrite length_map.
      destruct xs as [| row xs]; simpl; [| rewrite length_map]; reflexivity.
  - intros sequence Hbad.
    destruct (array_rejects sequence Hbad) as [msg Hmsg].
    exists msg. split; [| exact Hinv].
    apply (predict_array_raises PROJECT_ROOT files prec emax sequence w w1
             model sp mc _ Hload Hmsg).
Qed.

(** Thirteen steps go to the model; a row that is one feature short,
    or holds the text "n/a", does not. *)
Lemma sequence_shape_not_validated_witness :
  (invoked (fst (predict "/app"
                   (Examples.lstm_files
                      (Examples.keras_model (Examples.f32 1 (-1))
                                            Examples.tied_categories))
                   53 1024 (map (map Number) (Examples.zeros 13)) fresh))
   = invoked fresh ++ [[map (map float32) (Examples.zeros 13)]] /\
   shape [map (map float32) (Examples.zeros 13)] = (1, 13, 9)) /\
  (exists msg,
     snd (predict "/app"
            (Examples.lstm_files
               (Examples.keras_model (Examples.f32 1 (-1)) Examples.tied_categories))
            53 1024
            [[Number (S754_zero false); Number (S754_zero false)];
             [Number (S754_zero false)]]
            fresh)
     = Raise (ValueError msg)) /\
  (exists msg,
     snd (predict "/app"
            (Examples.lstm_files
               (Examples.keras_model (Examples.f32 1 (-1)) Examples.tied_categories))
            53 1024 [[Number (S754_zero false); Text "n/a"]] fresh)
     = Raise (ValueError msg)).
Proof.
  destruct (sequence_shape_not_validated "/app"
              (Examples.lstm_files
                 (Examples.keras_model (Examples.f32 1 (-1)) Examples.tied_categories))
              53 1024 fresh
              (fst (load_model "/app"
                      (Examples.lstm_files
                         (Examples.keras_model (Examples.f32 1 (-1))
                                               Examples.tied_categories))
                      fresh))
              (Examples.keras_model (Examples.f32 1 (-1)) Examples.tied_categories)
              (Some Examples.scaler) (Some Examples.config) eq_refl)
    as [Hruns Hrejects].
  split; [| split].
  - apply (Hruns (Examples.zeros 13)). reflexivity.
  - destruct (Hrejects [[Number (S754_zero false); Number (S754_zero false)];
                        [Number (S754_zero false)]]) as (msg & Hmsg & _).
    + left. reflexivity.
    + exists msg. rewrite Hmsg. reflexivity.
  - destruct (Hrejects [[Number (S754_zero false); Text "n/a"]])
      as (msg & Hmsg & _).
    + right. exists [Number (S754_zero false); Text "n/a"], "n/a"%string.
      split; [left; reflexivity | right; left; reflexivity].
    + exists msg. rewrite Hmsg. reflexivity.
Defined.

(** C2 as stated fails.  A sequence of 13 steps of 9 numbers is not
    turned down: the model is run on a batch of shape (1, 13, 9).  A
    model that takes any number of steps answers and [predict] returns;
    a model built for 14 steps raises, and that exception, raised by
    the model when run, is the only failure. *)
Lemma thirteen_steps_reach_the_model :
  length (Examples.zeros 13) = 13 /\
  predict "/app"
    (Examples.lstm_files
       (Examples.constant_model (Examples.f32 1 (-1)) Examples.tied_categories))
    53 1024 (Examples.numbers (Examples.zeros 13)) fresh
  = ({| globals :=
          {| _model := Some (Examples.constant_model (Examples.f32 1 (-1))
                                                     Examples.tied_categories);
             _scaler_params := Some Examples.scaler;
             _model_config := Some Examples.config |};
        invoked := [[Examples.zeros 13]] |},
     Ok {| calories := Examples.f64 500 0;
           category := 1;
           categoryConfidence := Examples.f32 7 (-3) |}) /\
  map shape
    (invoked (fst (predict "/app"
                     (Examples.lstm_files
                        (Examples.keras_model (Examples.f32 1 (-1))
                                              Examples.tied_categories))
                     53 1024 (Examples.numbers (Examples.zeros 13)) fresh)))
  = [(1, 13, 9)] /\
  snd (predict "/app"
         (Examples.lstm_files
            (Examples.keras_model (Examples.f32 1 (-1)) Examples.tied_categories))
         53 1024 (Examples.numbers (Examples.zeros 13)) fresh)
  = Raise (ValueError "Input 0 of layer is incompatible with the layer: expected shape=(None, 14, 9)") /\
  Examples.keras_model (Examples.f32 1 (-1)) Examples.tied_categories
    [Examples.zeros 13]
  = Raise (ValueError "Input 0 of layer is incompatible with the layer: expected shape=(None, 14, 9)").
Proof.
  repeat split; vm_compute; reflexivity.
Qed.

(** *** Loading the artifacts *)

(** C9 fails on the code.  With the model binary on the disk and
    scaler_params.json missing, the first [load_model] raises
    FileNotFoundError for the scaler path after it has stored the model
    in [_model]; the second finds [_model] set and returns the model
    with [None] for the scaler and the config, raising nothing; the
    [predict] that follows runs the model and then fails on
    [scaler_params['min']] with TypeError. *)
Theorem second_load_skips_missing_scaler
    (PROJECT_ROOT : string) (model : Model) (cfg : option ModelConfig) :
  snd (load_model PROJECT_ROOT
         {| model_file := Some model; scaler_file := None; config_file := cfg |}
         fresh)
  = Raise (FileNotFoundError
             ("[Errno 2] No such file or directory: '"
              ++ SCALER_PATH PROJECT_ROOT ++ "'")%string) /\
  snd (load_model PROJECT_ROOT
         {| model_file := Some model; scaler_file := None; config_file := cfg |}
         (fst (load_model PROJECT_ROOT
                 {| model_file := Some model; scaler_file := None;
                    config_file := cfg |}
                 fresh)))
  = Ok (model, None, None) /\
  snd (predict "/app"
         (Examples.files_without_scaler
            (Examples.constant_model (Examples.f32 1 (-1)) Examples.tied_categories))
         53 1024 (Examples.numbers (Examples.zeros 14))
         (fst (load_model "/app"
                 (Examples.files_without_scaler
                    (Examples.constant_model (Examples.f32 1 (-1))
                                             Examples.tied_categories))
                 fresh)))
  = Raise (TypeError "'NoneType' object is not subscriptable").
Proof.
  repeat split; vm_compute; reflexivity.
Qed.

(** *** The endpoint *)

(** What the three kinds of bad sequence become at [POST /predict]: an
    empty one is answered 400 before anything is loaded; a text entry
    and a 13-step sequence are answered 500, the first with the message
    of the array conversion, the second with the message of the model. *)
Example endpoint_statuses :
  predict_endpoint "/app"
    (Examples.lstm_files
       (Examples.keras_model (Examples.f32 1 (-1)) Examples.tied_categories))
    53 1024 (Ok (Some [("sequence"%string, [])])) fresh
  = (fresh, (JsonError "Missing sequence", 400)) /\
  snd (predict_endpoint "/app"
         (Examples.lstm_files
            (Examples.keras_model (Examples.f32 1 (-1)) Examples.tied_categories))
         53 1024
         (Ok (Some [("sequence"%string, [[Number (S754_zero false); Text "n/a"]])]))
         fresh)
  = (JsonError "could not convert string to float: 'n/a'", 500) /\
  snd (predict_endpoint "/app"
         (Examples.lstm_files
            (Examples.keras_model (Examples.f32 1 (-1)) Examples.tied_categories))
         53 1024
         (Ok (Some [("sequence"%string, Examples.numbers (Examples.zeros 13))]))
         fresh)
  = (JsonError "Input 0 of layer is incompatible with the layer: expected shape=(None, 14, 9)",
     500).
Proof. repeat split; vm_compute; reflexivity. Qed.

(* ----------------------------------------------------------------- *)
(** *** The project root *)

Lemma ancestor_root (k : nat) : ancestor k [] = [].
Proof. induction k as [| k IH]; simpl; [| rewrite IH]; reflexivity. Qed.

Lemma ancestor_succ (k : nat) (p : Path) :
  ancestor (S k) p = ancestor k (parent p).
Proof. unfold ancestor. apply Nat.iter_succ_r. Qed.

Lemma parent_fixed (p : Path) : parent p = p -> p = [].
Proof.
  destruct p as [| x p] using rev_ind; [reflexivity |].
  unfold parent. rewrite removelast_last. intros H.
  apply (f_equal (@length string)) in H. rewrite length_app in H. simpl in H. lia.
Qed.

(** The loop returns the nearest directory with a marker among the
    [levels] it looks at. *)
Lemma search_up_finds (exists_ : Path -> bool) (levels : nat) :
  forall (current : Path) (k : nat),
    k < levels ->
    has_marker exists_ (ancestor k current) = true ->
    (forall j, j < k -> has_marker exists_ (ancestor j current) = false) ->
    search_up exists_ levels current = Some (ancestor k current).
Proof.
  induction levels as [| levels IH]; intros current k Hk Hmark Hnone; [lia |].
  simpl. destruct k as [| k].
  - simpl in Hmark. rewrite Hmark. reflexivity.
  - assert (H0 : has_marker exists_ current = false) by (apply (Hnone 0); lia).
    rewrite H0.
    destruct (list_eq_dec string_dec (parent current) current) as [Hroot | _].
    + apply parent_fixed in Hroot. subst current.
      rewrite ancestor_root in Hmark. congruence.
    + rewrite ancestor_succ. apply IH.
      * lia.
      * rewrite <- ancestor_succ. exact Hmark.
      * intros j Hj. rewrite <- ancestor_succ. apply Hnone. lia.
Qed.

Lemma search_up_gives_up (exists_ : Path -> bool) (levels : nat) :
  forall current : Path,
    (forall j, j < levels -> has_marker exists_ (ancestor j current) = false) ->
    search_up exists_ levels current = None.
Proof.
  induction levels as [| levels IH]; intros current Hnone; [reflexivity |].
  assert (H0 : has_marker exists_ current = false) by (apply (Hnone 0); lia).
  simpl. rewrite H0.
  destruct (list_eq_dec string_dec (parent current) current); [reflexivity |].
  apply IH. intros j Hj. rewrite <- ancestor_succ. apply Hnone. lia.
Qed.

(** [find_project_root] returns the nearest directory that holds 'src'
    or 'package.json' among the script directory and the four
    directories above it. *)
Theorem find_project_root_nearest_marker
    (exists_ : Path -> bool) (script_dir : Path) (k : nat) :
  k <= 4 ->
  has_marker exists_ (ancestor k script_dir) = true ->
  (forall j, j < k -> has_marker exists_ (ancestor j script_dir) = false) ->
  find_project_root exists_ script_dir = ancestor k script_dir.
Proof.
  intros Hk Hmark Hnone. unfold find_project_root.
  destruct (has_marker exists_ script_dir) eqn:H0.
  - destruct k as [| k]; [reflexivity |].
    assert (has_marker exists_ script_dir = false) by (apply (Hnone 0); lia).
    congruence.
  - rewrite (search_up_finds exists_ 5 script_dir k); [reflexivity | lia | | ];
      assumption.
Qed.

Lemma find_project_root_nearest_marker_witness :
  find_project_root
    (Examples.disk [["srv"; "smartfood"; "package.json"]; ["srv"; "src"]]%string)
    ["srv"; "smartfood"; "services"; "lstm"]%string
  = ["srv"; "smartfood"]%string.
Proof.
  apply (find_project_root_nearest_marker
           (Examples.disk [["srv"; "smartfood"; "package.json"]; ["srv"; "src"]]%string)
           ["srv"; "smartfood"; "services"; "lstm"]%string 2).
  - lia.
  - reflexivity.
  - intros j Hj. destruct j as [| [| j]]; [reflexivity | reflexivity | lia].
Defined.

(** A marker five levels above the script directory, or higher, is not
    looked for: with none in the script directory and the four
    directories above it, [find_project_root] falls back to the script
    directory. *)
Theorem find_project_root_stops_at_four_levels
    (exists_ : Path -> bool) (script_dir : Path) :
  (forall j, j <= 4 -> has_marker exists_ (ancestor j script_dir) = false) ->
  find_project_root exists_ script_dir = script_dir.
Proof.
  intros Hnone. unfold find_project_root.
  assert (H0 : has_marker exists_ script_dir = false) by (apply (Hnone 0); lia).
  rewrite H0, search_up_gives_up; [reflexivity |].
  intros j Hj. apply Hnone. lia.
Qed.

Lemma find_project_root_stops_at_four_levels_witness :
  has_marker (Examples.disk [["srv"; "src"]]%string)
    (ancestor 5 ["srv"; "a"; "b"; "c"; "d"; "lstm"]%string) = true /\
  find_project_root (Examples.disk [["srv"; "src"]]%string)
    ["srv"; "a"; "b"; "c"; "d"; "lstm"]%string
  = ["srv"; "a"; "b"; "c"; "d"; "lstm"]%string.
Proof.
  split; [reflexivity |].
  apply (find_project_root_stops_at_four_levels
           (Examples.disk [["srv"; "src"]]%string)
           ["srv"; "a"; "b"; "c"; "d"; "lstm"]%string).
  intros j Hj.
  destruct j as [| [| [| [| [| j]]]]]; try reflexivity. lia.
Defined.

(* ----------------------------------------------------------------- *)
(** *** The cache of the sequence service *)

Lemma load_model_cached (PROJECT_ROOT : string) (files : Files) (w : World) (m : Model) :
  _model (globals w) = Some m ->
  load_model PROJECT_ROOT files w
  = (w, Ok (m, _scaler_params (globals w), _model_config (globals w))).
Proof.
  intros H. unfold load_model, seq_, read_globals, ret. rewrite H. reflexivity.
Qed.

(** What a returning [load_model] leaves in the globals. *)
Lemma load_model_ok (PROJECT_ROOT : string) (files : Files) (w w1 : World)
    (m : Model) (sp : option ScalerParams) (mc : option ModelConfig) :
  load_model PROJECT_ROOT files w = (w1, Ok (m, sp, mc)) ->
  globals w1 = {| _model := Some m; _scaler_params := sp; _model_config := mc |} /\
  invoked w1 = invoked w.
Proof.
  unfold load_model, seq_, read_globals, write_globals, open_json, ret, raise.
  destruct w as [[model0 sp0 mc0] log]. cbn [globals _model _scaler_params _model_config].
  destruct model0 as [m0 |].
  - intros H. injection H as <- <- <- <-. auto.
  - destruct (model_file files) as [m1 |]; [| discriminate].
    cbn [globals invoked].
    destruct (scaler_file files) as [sp1 |]; [| discriminate].
    cbn [globals invoked].
    destruct (config_file files) as [mc1 |]; [| discriminate].
    intros H. injection H as <- <- <- <-. auto.
Qed.

(** Once [load_model] has returned, it returns the same model and
    companions at every later call in the process, and leaves the
    process as it is, whatever is then on the disk and wherever the
    root is: nothing is read again. *)
Theorem load_model_is_settled
    (PROJECT_ROOT : string) (files : Files) (w w1 : World)
    (loaded : Model * option ScalerParams * option ModelConfig) :
  load_model PROJECT_ROOT files w = (w1, Ok loaded) ->
  forall (PROJECT_ROOT' : string) (files' : Files),
    load_model PROJECT_ROOT' files' w1 = (w1, Ok loaded).
Proof.
  destruct loaded as [[m sp] mc]. intros H PROJECT_ROOT' files'.
  destruct (load_model_ok PROJECT_ROOT files w w1 m sp mc H) as [Hg _].
  rewrite (load_model_cached PROJECT_ROOT' files' w1 m) by (rewrite Hg; reflexivity).
  rewrite Hg. reflexivity.
Qed.

Lemma load_model_is_settled_witness :
  load_model "/elsewhere"
    {| model_file := None; scaler_file := None; config_file := None |}
    (fst (load_model "/app"
            (Examples.lstm_files
               (Examples.constant_model (Examples.f32 1 (-1)) Examples.tied_categories))
            fresh))
  = (fst (load_model "/app"
            (Examples.lstm_files
               (Examples.constant_model (Examples.f32 1 (-1)) Examples.tied_categories))
            fresh),
     Ok (Examples.constant_model (Examples.f32 1 (-1)) Examples.tied_categories,
         Some Examples.scaler, Some Examples.config)).
Proof.
  apply (load_model_is_settled "/app"
           (Examples.lstm_files
              (Examples.constant_model (Examples.f32 1 (-1)) Examples.tied_categories))
           fresh).
  reflexivity.
Defined.

(* ----------------------------------------------------------------- *)
(** *** What a prediction needs and leaves *)

Section Predict.

Variable PROJECT_ROOT : string.
Variable files : Files.
Variables prec emax : Z.

(** The first half read backwards. *)
Lemma model_output_ok (sequence : list (list entry)) (w w' : World)
    (c : float) (v : list float)
    (sp : option ScalerParams) (mc : option ModelConfig) :
  model_output PROJECT_ROOT files sequence w = (w', Ok (c, v, sp, mc)) ->
  exists w1 model batch,
    load_model PROJECT_ROOT files w = (w1, Ok (model, sp, mc)) /\
    Np.array [sequence] = Ok batch /\
    w' = {| globals := globals w1; invoked := invoked w1 ++ [batch] |}.
Proof.
  unfold model_output, seq_, lift, run, ret. intros H.
  destruct (load_model PROJECT_ROOT files w) as [w1 [[[model sp1] mc1] | e]];
    [| discriminate].
  destruct (Np.array [sequence]) as [batch | e]; [| discriminate].
  destruct (model batch) as [predictions | e]; [| discriminate].
  destruct (p0 <- getitem predictions 0;; p00 <- getitem p0 0;; getitem p00 0);
    [| discriminate].
  destruct (p1 <- getitem predictions 1;; getitem p1 0); [| discriminate].
  injection H as <- <- <- <- <-. exists w1, model, batch. auto.
Qed.

(** The second half read backwards. *)
Lemma normalise_ok (c : float) (v : list float)
    (sp : option ScalerParams) (mc : option ModelConfig) (r : Prediction) :
  normalise prec emax c v sp mc = Ok r ->
  exists sp' mc' cal_min cal_max name,
    sp = Some sp' /\ mc = Some mc' /\
    nth_error (scaler_min sp') 0 = Some cal_min /\
    nth_error (scaler_max sp') 0 = Some cal_max /\
    argmax v = Ok (category r) /\
    nth_error (food_categories mc') (category r) = Some name /\
    nth_error v (category r) = Some (categoryConfidence r) /\
    calories r = denormalize prec emax c cal_min cal_max.
Proof.
  unfold normalise, subscriptable, getitem. intros H.
  destruct sp as [sp' |]; cbn [bind] in H; [| discriminate].
  destruct (nth_error (scaler_min sp') 0) as [cal_min |] eqn:Hmin; cbn [bind] in H;
    [| discriminate].
  destruct (nth_error (scaler_max sp') 0) as [cal_max |] eqn:Hmax; cbn [bind] in H;
    [| discriminate].
  destruct (argmax v) as [k |]; cbn [bind] in H; [| discriminate].
  destruct mc as [mc' |]; cbn [bind] in H; [| discriminate].
  destruct (nth_error (food_categories mc') k) as [name |] eqn:Hname;
    cbn [bind] in H; [| discriminate].
  destruct (nth_error v k) as [conf |] eqn:Hconf; cbn [bind] in H; [| discriminate].
  injection H as <-. cbn [category categoryConfidence calories].
  exists sp', mc', cal_min, cal_max, name. repeat split; assumption || reflexivity.
Qed.

Lemma normalise_needs_both (c : float) (v : list float)
    (sp : option ScalerParams) (mc : option ModelConfig) :
  sp = None \/ mc = None -> exists e, normalise prec emax c v sp mc = Raise e.
Proof.
  intros H. destruct (normalise prec emax c v sp mc) as [r | e] eqn:Hn; [| eauto].
  destruct (normalise_ok c v sp mc r Hn) as (sp' & mc' & _ & _ & _ & -> & -> & _).
  destruct H; discriminate.
Qed.

End Predict.

(** In a process that holds the model without the scaler, or without
    the config, no prediction returns, whatever the sequence and
    whatever is on the disk; [GET /health] reports the model as loaded
    all the same. *)
Theorem partly_loaded_never_predicts
    (PROJECT_ROOT : string) (files : Files) (prec emax : Z)
    (w : World) (m : Model) :
  _model (globals w) = Some m ->
  _scaler_params (globals w) = None \/ _model_config (globals w) = None ->
  model_loaded (health files w) = true /\
  forall sequence,
    exists e, snd (predict PROJECT_ROOT files prec emax sequence w) = Raise e.
Proof.
  intros Hm Hpart. split; [unfold health; cbn [model_loaded]; rewrite Hm; reflexivity |].
  intros sequence. rewrite predict_normalise.
  destruct (model_output PROJECT_ROOT files sequence w)
    as [w' [[[[c v] sp] mc] | e]] eqn:Hout; cbn [snd]; [| eauto].
  destruct (model_output_ok PROJECT_ROOT files sequence w w' c v sp mc Hout)
    as (w1 & model & batch & Hload & _ & _).
  rewrite (load_model_cached PROJECT_ROOT files w m Hm) in Hload.
  injection Hload as _ _ <- <-.
  apply normalise_needs_both. exact Hpart.
Qed.

Lemma partly_loaded_never_predicts_witness :
  model_loaded
    (health (Examples.lstm_files
               (Examples.constant_model (Examples.f32 1 (-1)) Examples.tied_categories))
       (fst (load_model "/app"
               (Examples.files_without_scaler
                  (Examples.constant_model (Examples.f32 1 (-1))
                                           Examples.tied_categories))
               fresh)))
  = true /\
  forall sequence,
    exists e,
      snd (predict "/app"
             (Examples.lstm_files
                (Examples.constant_model (Examples.f32 1 (-1)) Examples.tied_categories))
             53 1024 sequence
             (fst (load_model "/app"
                     (Examples.files_without_scaler
                        (Examples.constant_model (Examples.f32 1 (-1))
                                                 Examples.tied_categories))
                     fresh)))
      = Raise e.
Proof.
  apply (partly_loaded_never_predicts "/app"
           (Examples.lstm_files
              (Examples.constant_model (Examples.f32 1 (-1)) Examples.tied_categories))
           53 1024 _
           (Examples.constant_model (Examples.f32 1 (-1)) Examples.tied_categories)).
  - reflexivity.
  - left. reflexivity.
Defined.

(** [predict] changes the globals as [load_model] does and in no other
    way, and it runs the model at most once, on a batch that holds the
    one converted sequence. *)
Theorem predict_runs_the_model_at_most_once
    (PROJECT_ROOT : string) (files : Files) (prec emax : Z)
    (sequence : list (list entry)) (w : World) :
  globals (fst (predict PROJECT_ROOT files prec emax sequence w))
  = globals (fst (load_model PROJECT_ROOT files w)) /\
  (invoked (fst (predict PROJECT_ROOT files prec emax sequence w)) = invoked w \/
   exists rows,
     for_each (for_each to_float32) sequence = Ok rows /\
     invoked (fst (predict PROJECT_ROOT files prec emax sequence w))
     = invoked w ++ [[rows]]).
Proof.
  rewrite predict_world. unfold model_output, seq_, lift, run, ret.
  pose proof (load_model_invoked PROJECT_ROOT files w) as Hinv.
  destruct (load_model PROJECT_ROOT files w) as [w1 [[[model sp] mc] | e]];
    cbn [fst] in *; [| auto].
  destruct (Np.array [sequence]) as [batch | e] eqn:Harr; cbn [fst]; [| auto].
  assert (Hbatch : exists rows,
             for_each (for_each to_float32) sequence = Ok rows /\ batch = [rows]).
  { unfold Np.array in Harr.
    destruct (rectangular [sequence] && rectangular (concat [sequence]));
      [| discriminate].
    cbn [for_each] in Harr.
    destruct (for_each (for_each to_float32) sequence) as [rows |];
      cbn [bind] in Harr; [| discriminate].
    injection Harr as <-. eauto. }
  destruct Hbatch as (rows & Hrows & ->).
  assert (Hafter : forall (rest : World -> World * result
                     (float * list float * option ScalerParams * option ModelConfig)),
             (forall x, fst (rest x) = x) ->
             globals (fst (rest {| globals := globals w1;
                                   invoked := invoked w1 ++ [[rows]] |}))
             = globals w1 /\
             (invoked (fst (rest {| globals := globals w1;
                                    invoked := invoked w1 ++ [[rows]] |}))
              = invoked w \/
              exists rows0,
                Ok rows = Ok rows0 /\
                invoked (fst (rest {| globals := globals w1;
                                      invoked := invoked w1 ++ [[rows]] |}))
                = invoked w ++ [[rows0]])).
  { intros rest Hrest. rewrite Hrest. cbn [globals invoked]. split; [reflexivity |].
    right. exists rows. rewrite Hinv. auto. }
  rewrite Hrows.
  destruct (model [rows]) as [predictions | e].
  - destruct (p0 <- getitem predictions 0;; p00 <- getitem p0 0;; getitem p00 0).
    + destruct (p1 <- getitem predictions 1;; getitem p1 0);
        apply (Hafter (fun x => (x, _))); reflexivity.
    + apply (Hafter (fun x => (x, _))); reflexivity.
  - apply (Hafter (fun x => (x, _))); reflexivity.
Qed.

(** When [predict] returns, the process holds the model, the scaler
    and the config, the model has been run once more, and the returned
    [category] is an index of [food_categories] in that config and of
    the category scores. *)
Theorem prediction_names_a_category
    (PROJECT_ROOT : string) (files : Files) (prec emax : Z)
    (sequence : list (list entry)) (w w' : World) (r : Prediction) :
  predict PROJECT_ROOT files prec emax sequence w = (w', Ok r) ->
  exists m sp mc batch name,
    globals w' = {| _model := Some m; _scaler_params := Some sp;
                    _model_config := Some mc |} /\
    invoked w' = invoked w ++ [batch] /\
    nth_error (food_categories mc) (category r) = Some name.
Proof.
  rewrite predict_normalise.
  destruct (model_output PROJECT_ROOT files sequence w)
    as [w1 [[[[c v] sp] mc] | e]] eqn:Hout; [| discriminate].
  intros H. injection H as <- Hn.
  destruct (normalise_ok prec emax c v sp mc r Hn)
    as (sp' & mc' & cal_min & cal_max & name & -> & -> & _ & _ & _ & Hname & _).
  destruct (model_output_ok PROJECT_ROOT files sequence w w1 c v _ _ Hout)
    as (w0 & model & batch & Hload & _ & ->).
  destruct (load_model_ok PROJECT_ROOT files w w0 model _ _ Hload) as [Hg Hinv].
  exists model, sp', mc', batch, name. cbn [globals invoked].
  rewrite Hg, Hinv. auto.
Qed.

Lemma prediction_names_a_category_witness :
  exists m sp mc batch name,
    globals
      {| globals := {| _model := Some (Examples.constant_model (Examples.f32 1 (-1))
                                                               Examples.tied_categories);
                       _scaler_params := Some Examples.scaler;
                       _model_config := Some Examples.config |};
         invoked := [[Examples.zeros 14]] |}
    = {| _model := Some m; _scaler_params := Some sp; _model_config := Some mc |} /\
    [[Examples.zeros 14]] = invoked fresh ++ [batch] /\
    nth_error (food_categories mc) 1 = Some name.
Proof.
  apply (prediction_names_a_category "/app"
           (Examples.lstm_files
              (Examples.constant_model (Examples.f32 1 (-1)) Examples.tied_categories))
           53 1024 (Examples.numbers (Examples.zeros 14)) fresh
           {| globals := {| _model := Some (Examples.constant_model (Examples.f32 1 (-1))
                                                                    Examples.tied_categories);
                            _scaler_params := Some Examples.scaler;
                            _model_config := Some Examples.config |};
              invoked := [[Examples.zeros 14]] |}
           {| calories := Examples.f64 500 0;
              category := 1;
              categoryConfidence := Examples.f32 7 (-3) |}).
  vm_compute. reflexivity.
Defined.

(** After the model has answered, an empty 'min' or 'max' array in the
    scaler makes [predict] raise IndexError, and an empty vector of
    category scores makes it raise the ValueError of [np.argmax]; the
    model has been run by then. *)
Theorem failures_after_the_model_has_run
    (PROJECT_ROOT : string) (files : Files) (prec emax : Z)
    (sequence : list (list entry)) (w w' : World)
    (c : float) (v : list float) (sp : ScalerParams) (mc : option ModelConfig) :
  model_output PROJECT_ROOT files sequence w = (w', Ok (c, v, Some sp, mc)) ->
  (exists batch, invoked w' = invoked w ++ [batch]) /\
  (scaler_min sp = [] \/ scaler_max sp = [] ->
   predict PROJECT_ROOT files prec emax sequence w
   = (w', Raise (IndexError "list index out of range"))) /\
  (scaler_min sp <> [] -> scaler_max sp <> [] -> v = [] ->
   predict PROJECT_ROOT files prec emax sequence w
   = (w', Raise (ValueError "attempt to get argmax of an empty sequence"))).
Proof.
  intros Hout. split; [| split].
  - destruct (model_output_ok PROJECT_ROOT files sequence w w' c v _ _ Hout)
      as (w0 & model & batch & Hload & _ & ->).
    destruct (load_model_ok PROJECT_ROOT files w w0 model _ _ Hload) as [_ Hinv].
    exists batch. cbn [invoked]. rewrite Hinv. reflexivity.
  - intros Hempty. rewrite predict_normalise, Hout.
    unfold normalise. cbn [subscriptable bind].
    destruct (scaler_min sp) as [| cal_min mins]; [reflexivity |].
    destruct Hempty as [Hempty | Hempty]; [discriminate |].
    rewrite Hempty. reflexivity.
  - intros Hmin Hmax ->. rewrite predict_normalise, Hout.
    unfold normalise. cbn [subscriptable bind].
    destruct (scaler_min sp) as [| cal_min mins]; [congruence |].
    destruct (scaler_max sp) as [| cal_max maxs]; [congruence |].
    reflexivity.
Qed.

Lemma failures_after_the_model_has_run_witness :
  predict "/app"
    (Examples.lstm_files (Examples.constant_model (Examples.f32 1 (-1)) []))
    53 1024 (Examples.numbers (Examples.zeros 14)) fresh
  = (fst (model_output "/app"
            (Examples.lstm_files (Examples.constant_model (Examples.f32 1 (-1)) []))
            (Examples.numbers (Examples.zeros 14)) fresh),
     Raise (ValueError "attempt to get argmax of an empty sequence")).
Proof.
  destruct (failures_after_the_model_has_run "/app"
              (Examples.lstm_files (Examples.constant_model (Examples.f32 1 (-1)) []))
              53 1024 (Examples.numbers (Examples.zeros 14)) fresh
              (fst (model_output "/app"
                      (Examples.lstm_files
                         (Examples.constant_model (Examples.f32 1 (-1)) []))
                      (Examples.numbers (Examples.zeros 14)) fresh))
              (Examples.f32 1 (-1)) [] Examples.scaler (Some Examples.config))
    as (_ & _ & Hempty).
  - vm_compute. reflexivity.
  - apply Hempty; [discriminate | discriminate | reflexivity].
Defined.

(** A score of zero denormalises to the minimum itself, as converted to
    the arithmetic format, whenever the width [max - min] converts to a
    finite number and the minimum to a finite number other than zero. *)
Theorem zero_score_gives_the_minimum
    (prec emax : Z) (s : bool) (cal_min cal_max : float)
    (s' : bool) (m : positive) (e : Z) :
  isfinite (astype prec emax (SFsub 53 1024 cal_max cal_min)) = true ->
  astype prec emax cal_min = S754_finite s' m e ->
  denormalize prec emax (S754_zero s) cal_min cal_max = S754_finite s' m e.
Proof.
  intros Hwidth Hmin. unfold denormalize. rewrite Hmin.
  destruct (astype prec emax (SFsub 53 1024 cal_max cal_min)); try discriminate;
    reflexivity.
Qed.

Lemma zero_score_gives_the_minimum_witness :
  denormalize 53 1024 (S754_zero false) (Examples.f64 200 0) (Examples.f64 1000 0)
  = Examples.f64 200 0.
Proof.
  apply (zero_score_gives_the_minimum 53 1024 false
           (Examples.f64 200 0) (Examples.f64 1000 0)); reflexivity.
Defined.

(* ----------------------------------------------------------------- *)
(** *** Requests and the command line *)

(** [POST /predict] answers 200 with a result, or 400 or 500 with an
    error object; a 400, given for a request without data or without a
    non-empty sequence, leaves the process as it was: nothing is loaded
    and the model is not run. *)
Theorem sequence_endpoint_answers
    (PROJECT_ROOT : string) (files : Files) (prec emax : Z)
    (request_json : result (option (list (string * list (list entry)))))
    (w : World) :
  (snd (snd (predict_endpoint PROJECT_ROOT files prec emax request_json w)) = 200 /\
   exists r,
     fst (snd (predict_endpoint PROJECT_ROOT files prec emax request_json w))
     = JsonResult r) \/
  (snd (snd (predict_endpoint PROJECT_ROOT files prec emax request_json w)) = 400 /\
   fst (predict_endpoint PROJECT_ROOT files prec emax request_json w) = w /\
   exists msg,
     fst (snd (predict_endpoint PROJECT_ROOT files prec emax request_json w))
     = JsonError msg) \/
  (snd (snd (predict_endpoint PROJECT_ROOT files prec emax request_json w)) = 500 /\
   exists msg,
     fst (snd (predict_endpoint PROJECT_ROOT files prec emax request_json w))
     = JsonError msg).
Proof.
  unfold predict_endpoint.
  destruct request_json as [[[| member data] |] | e]; cbn [fst snd]; eauto 8.
  destruct (get (member :: data) "sequence") as [[| row sequence] |];
    cbn [fst snd]; eauto 8.
  destruct (predict PROJECT_ROOT files prec emax (row :: sequence) w) as [w' [r | e]];
    cbn [fst snd]; eauto 8.
Qed.

(** A direct call prints what the endpoint would answer, in a fresh
    process, for the sequence the argument parses to when it is not
    empty: the result on the standard output with exit status 0 where
    the endpoint answers 200, the error object on the standard error
    with exit status 1 where it answers 500. *)
Theorem main_agrees_with_sequence_endpoint
    (PROJECT_ROOT : string) (files : Files) (prec emax : Z)
    (flask_installed : bool)
    (json_loads : string -> result (list (list entry)))
    (prog arg : string) (rest : list string)
    (row : list entry) (sequence : list (list entry)) :
  arg <> "--server"%string ->
  json_loads arg = Ok (row :: sequence) ->
  (exists r,
     snd (predict_endpoint PROJECT_ROOT files prec emax
            (Ok (Some [("sequence"%string, row :: sequence)])) fresh)
     = (JsonResult r, 200) /\
     main PROJECT_ROOT files prec emax flask_installed json_loads (prog :: arg :: rest)
     = Exit [Dumps (JsonResult r)] [] 0) \/
  (exists msg,
     snd (predict_endpoint PROJECT_ROOT files prec emax
            (Ok (Some [("sequence"%string, row :: sequence)])) fresh)
     = (JsonError msg, 500) /\
     main PROJECT_ROOT files prec emax flask_installed json_loads (prog :: arg :: rest)
     = Exit [] [Dumps (JsonError msg)] 1).
Proof.
  intros Hserver Hparse. unfold main, predict_endpoint.
  apply String.eqb_neq in Hserver. rewrite Hserver, Hparse.
  cbn [get]. rewrite String.eqb_refl.
  destruct (predict PROJECT_ROOT files prec emax (row :: sequence) fresh)
    as [w' [r | e]]; cbn [snd]; eauto.
Qed.

Lemma main_agrees_with_sequence_endpoint_witness :
  exists r,
    snd (predict_endpoint "/app"
           (Examples.lstm_files
              (Examples.constant_model (Examples.f32 1 (-1)) Examples.tied_categories))
           53 1024
           (Ok (Some [("sequence"%string, Examples.numbers (Examples.zeros 14))]))
           fresh)
    = (JsonResult r, 200) /\
    main "/app"
      (Examples.lstm_files
         (Examples.constant_model (Examples.f32 1 (-1)) Examples.tied_categories))
      53 1024 true (fun _ => Ok (Examples.numbers (Examples.zeros 14)))
      ["lstm_predict.py"; "[[0,0,0,0,0,0,0,0,0], ...]"]%string
    = Exit [Dumps (JsonResult r)] [] 0.
Proof.
  destruct (main_agrees_with_sequence_endpoint "/app"
              (Examples.lstm_files
                 (Examples.constant_model (Examples.f32 1 (-1)) Examples.tied_categories))
              53 1024 true (fun _ => Ok (Examples.numbers (Examples.zeros 14)))
              "lstm_predict.py" "[[0,0,0,0,0,0,0,0,0], ...]" []
              (map Number (repeat (S754_zero false) 9))
              (Examples.numbers (Examples.zeros 13)))
    as [H | (msg & Hmsg & _)].
  - discriminate.
  - reflexivity.
  - exact H.
  - vm_compute in Hmsg. discriminate Hmsg.
Defined.

(** When [load_model] raises, [predict] raises the same exception
    whatever the sequence, which it does not convert, and the model is
    not run. *)
Theorem sequence_predict_fails_as_load_model
    (PROJECT_ROOT : string) (files : Files) (prec emax : Z)
    (w w1 : World) (e : exn) :
  load_model PROJECT_ROOT files w = (w1, Raise e) ->
  forall sequence,
    predict PROJECT_ROOT files prec emax sequence w = (w1, Raise e) /\
    invoked w1 = invoked w.
Proof.
  intros Hload sequence. split.
  - unfold predict, seq_. rewrite Hload. reflexivity.
  - pose proof (load_model_invoked PROJECT_ROOT files w) as H.
    rewrite Hload in H. exact H.
Qed.

Lemma sequence_predict_fails_as_load_model_witness :
  predict "/app"
    {| model_file := None; scaler_file := None; config_file := None |}
    53 1024 [[Text "n/a"]] fresh
  = (fresh,
     Raise (FileNotFoundError
              "Model not found: /app/data/models/lstm/eating_pattern_model.h5")) /\
  invoked fresh = invoked fresh.
Proof.
  apply (sequence_predict_fails_as_load_model "/app"
           {| model_file := None; scaler_file := None; config_file := None |}
           53 1024 fresh fresh).
  reflexivity.
Defined.

(* ----------------------------------------------------------------- *)
(** *** Loading when a file may fail to load *)

(** On a disk where every file that is there loads, the two embeddings
    of [load_model] agree. *)
Lemma load_model_loadable (PROJECT_ROOT : string) (files : Files) (w : World) :
  LstmLoader.load_model PROJECT_ROOT (LstmLoader.loadable files) w
  = load_model PROJECT_ROOT files w.
Proof.
  unfold LstmLoader.load_model, load_model, LstmLoader.open_json, open_json,
    LstmLoader.loadable, seq_, read_globals, write_globals, lift, ret, raise.
  cbn [LstmLoader.model_h5 LstmLoader.scaler_params_json
       LstmLoader.model_config_json].
  destruct (_model (globals w)); [reflexivity |].
  destruct (model_file files); [| reflexivity]. cbn [option_map].
  destruct (scaler_file files); [| reflexivity]. cbn [option_map].
  destruct (config_file files); reflexivity.
Qed.

Lemma loader_cached (PROJECT_ROOT : string) (disk : LstmLoader.Disk)
    (w : World) (m : Model) :
  _model (globals w) = Some m ->
  LstmLoader.load_model PROJECT_ROOT disk w
  = (w, Ok (m, _scaler_params (globals w), _model_config (globals w))).
Proof.
  intros H. unfold LstmLoader.load_model, seq_, read_globals, ret.
  rewrite H. reflexivity.
Qed.



(** A first load that fails is tried again only if it failed on the
    model file.  When the model file was missing or did not load, the
    globals are left as they were and a later call, on a disk that has
    become complete, loads all three files.  When the model loaded and
    the failure came after it, whatever its cause, [_model] stays set:
    every later call, whatever is then on the disk, returns that model
    with [None] in place of the scaler or of the config and reads no
    file. *)
Theorem failed_load_is_retried_only_without_model
    (PROJECT_ROOT : string) (disk : LstmLoader.Disk) (w w1 : World) (e : exn) :
  globals w = unloaded ->
  LstmLoader.load_model PROJECT_ROOT disk w = (w1, Raise e) ->
  (forall m,
     LstmLoader.model_h5 disk = Some (Ok m) ->
     forall (PROJECT_ROOT' : string) (disk' : LstmLoader.Disk),
     exists sp mc,
       LstmLoader.load_model PROJECT_ROOT' disk' w1 = (w1, Ok (m, sp, mc)) /\
       (sp = None \/ mc = None)) /\
  (LstmLoader.model_h5 disk = None \/
   (exists e0, LstmLoader.model_h5 disk = Some (Raise e0)) ->
   w1 = w /\
   forall (PROJECT_ROOT' : string) m' sp' mc',
     snd (LstmLoader.load_model PROJECT_ROOT'
            {| LstmLoader.model_h5 := Some (Ok m');
               LstmLoader.scaler_params_json := Some (Ok sp');
               LstmLoader.model_config_json := Some (Ok mc') |} w1)
     = Ok (m', Some sp', Some mc')).
Proof.
  intros Hfresh Hload.
  unfold LstmLoader.load_model, LstmLoader.open_json, seq_, read_globals,
    write_globals, lift, ret, raise in Hload.
  rewrite Hfresh in Hload. cbn [unloaded _model _scaler_params _model_config] in Hload.
  split.
  - intros m Hm PROJECT_ROOT' disk'. rewrite Hm in Hload.
    cbn [globals invoked] in Hload.
    destruct (LstmLoader.scaler_params_json disk) as [[sp1 | e1] |].
    + cbn [globals invoked] in Hload.
      destruct (LstmLoader.model_config_json disk) as [[mc1 | e2] |];
        [discriminate | |];
        injection Hload as <- _;
        rewrite (loader_cached PROJECT_ROOT' disk' _ m) by reflexivity;
        cbn [globals _scaler_params _model_config]; eauto.
    + injection Hload as <- _.
      rewrite (loader_cached PROJECT_ROOT' disk' _ m) by reflexivity.
      cbn [globals _scaler_params _model_config]. eauto.
    + injection Hload as <- _.
      rewrite (loader_cached PROJECT_ROOT' disk' _ m) by reflexivity.
      cbn [globals _scaler_params _model_config]. eauto.
  - intros Hmodel.
    assert (Hw : w1 = w).
    { destruct Hmodel as [Hm | [e0 Hm]]; rewrite Hm in Hload;
        injection Hload as <- _; reflexivity. }
    split; [exact Hw |]. subst w1.
    intros PROJECT_ROOT' m' sp' mc'.
    unfold LstmLoader.load_model, LstmLoader.open_json, seq_, read_globals,
      write_globals, lift, ret, raise.
    rewrite Hfresh. reflexivity.
Qed.

(** The scaler file is not JSON: the first load raises json.load's
    error with the model already stored, and the load that follows, on
    a complete disk, returns the model without scaler and config.  The
    model file is not a Keras model: the first load raises the loader's
    error and stores nothing, and the load that follows, on a complete
    disk, loads all three files. *)
Lemma failed_load_is_retried_only_without_model_witness :
  (LstmLoader.load_model "/app"
     (Examples.disk_with_broken_scaler
        (Examples.constant_model (Examples.f32 1 (-1)) Examples.tied_categories))
     fresh
   = ({| globals :=
           {| _model := Some (Examples.constant_model (Examples.f32 1 (-1))
                                                      Examples.tied_categories);
              _scaler_params := None;
              _model_config := None |};
         invoked := [] |},
      Raise (ValueError "Expecting value: line 1 column 1 (char 0)")) /\
   exists sp mc,
     LstmLoader.load_model "/app"
       (LstmLoader.loadable
          (Examples.lstm_files
             (Examples.constant_model (Examples.f32 1 (-1)) Examples.tied_categories)))
       {| globals :=
            {| _model := Some (Examples.constant_model (Examples.f32 1 (-1))
                                                       Examples.tied_categories);
               _scaler_params := None;
               _model_config := None |};
          invoked := [] |}
     = ({| globals :=
             {| _model := Some (Examples.constant_model (Examples.f32 1 (-1))
                                                        Examples.tied_categories);
                _scaler_params := None;
                _model_config := None |};
           invoked := [] |},
        Ok (Examples.constant_model (Examples.f32 1 (-1)) Examples.tied_categories,
            sp, mc)) /\
     (sp = None \/ mc = None)) /\
  (LstmLoader.load_model "/app" Examples.disk_with_broken_model fresh
   = (fresh, Raise (Exception "file signature not found")) /\
   snd (LstmLoader.load_model "/app"
          {| LstmLoader.model_h5 :=
               Some (Ok (Examples.constant_model (Examples.f32 1 (-1))
                                                 Examples.tied_categories));
             LstmLoader.scaler_params_json := Some (Ok Examples.scaler);
             LstmLoader.model_config_json := Some (Ok Examples.config) |}
          fresh)
   = Ok (Examples.constant_model (Examples.f32 1 (-1)) Examples.tied_categories,
         Some Examples.scaler, Some Examples.config)).
Proof.
  split.
  - split; [reflexivity |].
    destruct (failed_load_is_retried_only_without_model "/app"
                (Examples.disk_with_broken_scaler
                   (Examples.constant_model (Examples.f32 1 (-1))
                                            Examples.tied_categories))
                fresh
                {| globals :=
                     {| _model := Some (Examples.constant_model (Examples.f32 1 (-1))
                                                                Examples.tied_categories);
                        _scaler_params := None;
                        _model_config := None |};
                   invoked := [] |}
                (ValueError "Expecting value: line 1 column 1 (char 0)")
                eq_refl eq_refl) as [Hkept _].
    apply (Hkept (Examples.constant_model (Examples.f32 1 (-1)) Examples.tied_categories)
                 eq_refl "/app"%string).
  - split; [reflexivity |].
    destruct (failed_load_is_retried_only_without_model "/app"
                Examples.disk_with_broken_model fresh fresh
                (Exception "file signature not found")
                eq_refl eq_refl) as [_ Hretried].
    destruct Hretried as [_ Hlater].
    + right. eexists. reflexivity.
    + apply (Hlater "/app"%string).
Defined.

End LstmFacts.
